(** * Shift-table wage estimator: the parser and the per-day calculator of [app.py]

    The development follows the source file top to bottom.  The first part
    models the pieces of the Python runtime the program leans on (exceptions,
    [str] values and their methods, [int()], integer formatting, binary64
    arithmetic, [datetime.date], the two regular expressions); the second
    part embeds the functions of [app.py] under their own names; the third
    part states and proves the properties. *)

From Stdlib Require Import ZArith NArith List Bool Lia String Ascii Sorted.
From Stdlib Require Import DecimalString DecimalZ Floats.SpecFloat.
Import ListNotations.

Open Scope Z_scope.

(** ** Exceptions: a computation either returns or raises *)

Inductive exn : Set :=
| ValueError
| IndexError
| OverflowError
| ZeroDivisionError.

Inductive result (A : Type) : Type :=
| Ok (a : A)
| Raise (e : exn).

Arguments Ok {A} a.
Arguments Raise {A} e.

Definition bind {A B : Type} (c : result A) (k : A -> result B) : result B :=
  match c with
  | Ok a => k a
  | Raise e => Raise e
  end.

Declare Scope py_scope.
Delimit Scope py_scope with py.
Notation "x <- c ;; k" := (bind c (fun x => k))
  (at level 61, c at next level, right associativity) : py_scope.
Notation "' p <- c ;; k" := (bind c (fun x => let 'p := x in k))
  (at level 61, p pattern, c at next level, right associativity) : py_scope.
Open Scope py_scope.

(** ** [str]: a sequence of Unicode code points *)

Definition char := N.
Definition str := list char.

(** String literals of the source are written as they are in [app.py]; the
    file is UTF-8, so a literal is decoded from its bytes. *)
Fixpoint utf8_decode (bs : list N) : str :=
  match bs with
  | [] => []
  | b0 :: r0 =>
    if (b0 <? 0x80)%N then b0 :: utf8_decode r0
    else match r0 with
    | [] => []
    | b1 :: r1 =>
      if (b0 <? 0xE0)%N
      then ((b0 - 0xC0) * 0x40 + (b1 - 0x80))%N :: utf8_decode r1
      else match r1 with
      | [] => []
      | b2 :: r2 =>
        if (b0 <? 0xF0)%N
        then ((b0 - 0xE0) * 0x1000 + (b1 - 0x80) * 0x40 + (b2 - 0x80))%N
               :: utf8_decode r2
        else match r2 with
        | [] => []
        | b3 :: r3 =>
          ((b0 - 0xF0) * 0x40000 + (b1 - 0x80) * 0x1000
           + (b2 - 0x80) * 0x40 + (b3 - 0x80))%N :: utf8_decode r3
        end
      end
    end
  end.

Definition u (s : string) : str :=
  utf8_decode (map N_of_ascii (list_ascii_of_string s)).

Definition str_eqb (a b : str) : bool :=
  if list_eq_dec N.eq_dec a b then true else false.

(** [str.isspace] for one code point (the whitespace set of CPython's
    Unicode database). *)
Definition isspace (c : char) : bool :=
  ((0x09 <=? c) && (c <=? 0x0D) || (0x1C <=? c) && (c <=? 0x20)
   || (c =? 0x85) || (c =? 0xA0) || (c =? 0x1680)
   || (0x2000 <=? c) && (c <=? 0x200A)
   || (c =? 0x2028) || (c =? 0x2029) || (c =? 0x202F) || (c =? 0x205F)
   || (c =? 0x3000))%N.

Fixpoint lstrip (s : str) : str :=
  match s with
  | c :: s' => if isspace c then lstrip s' else s
  | [] => []
  end.

(** [s.strip()] *)
Definition strip (s : str) : str := rev (lstrip (rev (lstrip s))).

(** [s.split(sep)] for a one-character separator *)
Fixpoint split (sep : char) (s : str) : list str :=
  match s with
  | [] => [[]]
  | c :: s' =>
    if (c =? sep)%N then [] :: split sep s'
    else match split sep s' with
         | p :: ps => (c :: p) :: ps
         | [] => [[c]]
         end
  end.

Fixpoint startswith (s prefix : str) : bool :=
  match prefix, s with
  | [], _ => true
  | p :: prefix', c :: s' => (p =? c)%N && startswith s' prefix'
  | _ :: _, [] => false
  end.

(** [needle in s] *)
Fixpoint contains (needle s : str) : bool :=
  startswith s needle ||
  match s with
  | [] => false
  | _ :: s' => contains needle s'
  end.

Definition chr (a : ascii) : char := N_of_ascii a.

Definition NEWLINE : char := 10%N.

(** [parts[i]] *)
Definition index {A : Type} (l : list A) (i : nat) : result A :=
  match nth_error l i with
  | Some x => Ok x
  | None => Raise IndexError
  end.

(** [f"{z:02d}"]: the decimal numeral of an integer, zero-padded to two
    characters. *)
Definition str_of_int (z : Z) : str :=
  map N_of_ascii
      (list_ascii_of_string (DecimalString.NilZero.string_of_int (Z.to_int z))).

Definition format_02d (z : Z) : str :=
  let s := str_of_int z in
  if (List.length s <? 2)%nat then u "0" ++ s else s.

(** ** [float]: IEEE 754 binary64, round to nearest even *)

Definition prec : Z := 53.
Definition emax : Z := 1024.

Definition float := spec_float.

Definition fmul : float -> float -> float := SFmul prec emax.
Definition fadd : float -> float -> float := SFadd prec emax.
Definition fdiv : float -> float -> float := SFdiv prec emax.

Definition is_infinite (f : float) : bool :=
  match f with S754_infinity _ => true | _ => false end.

Definition is_zero (f : float) : bool :=
  match f with S754_zero _ => true | _ => false end.

(** An integer as an exact binary number (mantissa not yet rounded). *)
Definition exact_int (z : Z) : float :=
  match z with
  | Z0 => S754_zero false
  | Zpos p => S754_finite false p 0
  | Zneg p => S754_finite true p 0
  end.

(** The binary64 nearest to an integer (ties to even). *)
Definition of_int (z : Z) : float := binary_normalize prec emax z 0 false.

(** [float(z)]: the nearest binary64, [OverflowError] beyond its range. *)
Definition float_of_int (z : Z) : result float :=
  let f := of_int z in
  if is_infinite f then Raise OverflowError else Ok f.

(** [a / b] on two ints: the correctly rounded quotient. *)
Definition int_truediv (a b : Z) : result float :=
  if b =? 0 then Raise ZeroDivisionError
  else
    let q := fdiv (exact_int a) (exact_int b) in
    if is_infinite q then Raise OverflowError else Ok q.

(** A Python number is an [int] or a [float]; arithmetic on mixed operands
    converts the int. *)
Inductive pynum : Set :=
| PInt (z : Z)
| PFloat (f : float).

Definition as_float (x : pynum) : result float :=
  match x with
  | PInt z => float_of_int z
  | PFloat f => Ok f
  end.

Definition num_truediv (x y : pynum) : result pynum :=
  match x, y with
  | PInt a, PInt b => q <- int_truediv a b ;; Ok (PFloat q)
  | _, _ =>
    fx <- as_float x ;;
    fy <- as_float y ;;
    if is_zero fy then Raise ZeroDivisionError else Ok (PFloat (fdiv fx fy))
  end.

Definition num_mul (x y : pynum) : result pynum :=
  match x, y with
  | PInt a, PInt b => Ok (PInt (a * b))
  | _, _ => fx <- as_float x ;; fy <- as_float y ;; Ok (PFloat (fmul fx fy))
  end.

Definition num_add (x y : pynum) : result pynum :=
  match x, y with
  | PInt a, PInt b => Ok (PInt (a + b))
  | _, _ => fx <- as_float x ;; fy <- as_float y ;; Ok (PFloat (fadd fx fy))
  end.

(** The rational value of a finite float, as numerator and (positive)
    denominator. *)
Definition float_ratio (f : float) : option (Z * Z) :=
  match f with
  | S754_zero _ => Some (0, 1)
  | S754_finite s m e =>
    let sm := if s then Z.neg m else Z.pos m in
    Some (if 0 <=? e then (sm * 2 ^ e, 1) else (sm, 2 ^ (- e)))
  | _ => None
  end.

(** The value of [f] is exactly [n / d]. *)
Definition float_is_ratio (f : float) (n d : Z) : bool :=
  match float_ratio f with
  | Some (fn, fd) => fn * d =? n * fd
  | None => false
  end.

(** The value of [f] is within [2^-30] of [n / d] (for [d > 0]). *)
Definition float_near_ratio (f : float) (n d : Z) : bool :=
  match float_ratio f with
  | Some (fn, fd) => Z.abs (fn * d - n * fd) * 2 ^ 30 <=? fd * d
  | None => false
  end.

(** [x <= 0.0] *)
Definition float_nonpos (f : float) : bool := SFleb f (S754_zero false).

Definition float_eqb (x y : float) : bool :=
  match x, y with
  | S754_zero a, S754_zero b => Bool.eqb a b
  | S754_infinity a, S754_infinity b => Bool.eqb a b
  | S754_nan, S754_nan => true
  | S754_finite a m e, S754_finite b m' e' =>
    Bool.eqb a b && (m =? m')%positive && (e =? e')
  | _, _ => false
  end.

(** ** [datetime.date] and [datetime.datetime] *)

Module date.

Record t : Set := make { year : Z; month : Z; day : Z }.

Definition is_leap (y : Z) : bool :=
  (y mod 4 =? 0) && (negb (y mod 100 =? 0) || (y mod 400 =? 0)).

Definition days_in_month (y m : Z) : Z :=
  if (m =? 2) && is_leap y then 29
  else nth (Z.to_nat m) [0; 31; 28; 31; 30; 31; 30; 31; 31; 30; 31; 30; 31] 0.

Definition days_before_month (y m : Z) : Z :=
  nth (Z.to_nat m) [0; 0; 31; 59; 90; 120; 151; 181; 212; 243; 273; 304; 334] 0
  + (if (2 <? m) && is_leap y then 1 else 0).

Definition days_before_year (y : Z) : Z :=
  let y1 := y - 1 in
  y1 * 365 + y1 / 4 - y1 / 100 + y1 / 400.

Definition MINYEAR : Z := 1.
Definition MAXYEAR : Z := 9999.

(** [date(y, m, d)]: [ValueError] unless the three numbers name a day of
    the calendar.  (CPython answers [OverflowError] to arguments beyond a C
    int; the parser passes numbers of at most two digits and a year next to
    the clock's.) *)
Definition new (y m d : Z) : result t :=
  if negb ((MINYEAR <=? y) && (y <=? MAXYEAR)) then Raise ValueError
  else if negb ((1 <=? m) && (m <=? 12)) then Raise ValueError
  else if negb ((1 <=? d) && (d <=? days_in_month y m)) then Raise ValueError
  else Ok (make y m d).

Definition toordinal (x : t) : Z :=
  days_before_year (year x) + days_before_month (year x) (month x) + day x.

(** Monday is 0, Sunday is 6. *)
Definition weekday (x : t) : Z := (toordinal x + 6) mod 7.

End date.

Module datetime.

Record t : Set := make {
  year : Z; month : Z; day : Z;
  hour : Z; minute : Z; second : Z; microsecond : Z
}.

End datetime.

(** ** Regular expressions: the fragment the two patterns use

    Matching is by backtracking; a repetition is greedy.  [matches] lists
    every way the pattern can match a prefix of the subject, most preferred
    first, so the head of the list is the match [re] reports. *)

Local Unset Elimination Schemes.

Inductive cclass : Set :=
| Lit (c : char)
| OneOf (cs : list char)
| NoneOf (cs : list char)
| DigitClass.

Inductive regex : Set :=
| Rep (k : cclass) (lo : nat) (hi : option nat)
| Group (body : list regex).

Local Set Elimination Schemes.

Definition One (k : cclass) : regex := Rep k 1 (Some 1%nat).

Definition mem (c : char) (cs : list char) : bool := existsb (N.eqb c) cs.

(** captured groups, matched text, remaining subject *)
Definition mres : Set := (list str * str * str)%type.

Definition counts (lo : nat) (hi : option nat) (avail : nat) : list nat :=
  let top := match hi with Some h => Nat.min h avail | None => avail end in
  rev (seq lo (S top - lo)).

Definition seq_matches (f : regex -> str -> list mres)
  : list regex -> str -> list mres :=
  fix go rs s :=
    match rs with
    | [] => [([], [], s)]
    | r :: rs' =>
      flat_map (fun '(c1, t1, s1) =>
                  map (fun '(c2, t2, s2) => (c1 ++ c2, t1 ++ t2, s2))
                      (go rs' s1))
               (f r s)
    end.

(** ** Sample surroundings

    An interpreter whose only decimal digits are the ASCII ones, a calendar
    without holidays, and a few dates, clocks and lines to run the program
    on. *)

Definition ascii_only : char -> option Z := fun _ => None.

Definition no_holidays : date.t -> bool := fun _ => false.

(** A calendar that knows one holiday, New Year's Day 2026. *)
Definition new_year_2026 (d : date.t) : bool :=
  (date.year d =? 2026) && (date.month d =? 1) && (date.day d =? 1).

(** Thursday 18 December 2025 and Saturday 3 January 2026. *)
Definition thursday : date.t := date.make 2025 12 18.
Definition saturday : date.t := date.make 2026 1 3.

Definition clock (y m d : Z) : datetime.t := datetime.make y m d 12 0 0 0.

Definition TAB : str := [9%N].

(** The first data row of the format example in [main]. *)
Definition sample_line : str := u "12/18(木)" ++ TAB ++ u "17:00～20:00".

(** A Saturday row, and the page [main] computes for the sample line. *)
Definition saturday_line : str := u "01/03(土)" ++ TAB ++ u "13:00～17:30".

(** An interpreter that also knows the full-width digits. *)
Definition fullwidth_digits (c : char) : option Z :=
  if (0xFF10 <=? c)%N && (c <=? 0xFF19)%N then Some (Z.of_N c - 0xFF10)
  else None.

(** ** The program

    Two things come from outside the repository: the decimal digits of the
    interpreter's Unicode database beyond ASCII (the characters [\d] and
    [int()] accept), and the holiday calendar of the [jpholiday] package. *)

Section App.

Variable nonascii_decimal : char -> option Z.
Variable jpholiday_is_holiday : date.t -> bool.

(** The digit value of a decimal character. *)
Definition decimal (c : char) : option Z :=
  if (c <? 0x80)%N then
    if (0x30 <=? c)%N && (c <=? 0x39)%N then Some (Z.of_N c - 0x30) else None
  else nonascii_decimal c.

Definition isdecimal (c : char) : bool :=
  match decimal c with Some _ => true | None => false end.

Fixpoint digits_value (acc : Z) (s : str) : option Z :=
  match s with
  | [] => Some acc
  | c :: s' =>
    match decimal c with
    | Some d => digits_value (acc * 10 + d) s'
    | None => None
    end
  end.

(** [int(s)] on a string of decimal digits, which is what both call sites
    pass.  (CPython also accepts surrounding whitespace, a sign and
    underscores between digits; those inputs are [ValueError] here.) *)
Definition int (s : str) : result Z :=
  match s with
  | [] => Raise ValueError
  | _ :: _ =>
    match digits_value 0 s with
    | Some z => Ok z
    | None => Raise ValueError
    end
  end.

Definition in_class (k : cclass) (c : char) : bool :=
  match k with
  | Lit x => (c =? x)%N
  | OneOf cs => mem c cs
  | NoneOf cs => negb (mem c cs)
  | DigitClass => isdecimal c
  end.

(** Length of the longest prefix of [s] made of characters of class [k]. *)
Fixpoint run (k : cclass) (s : str) : nat :=
  match s with
  | c :: s' => if in_class k c then S (run k s') else O
  | [] => O
  end.

Fixpoint matches (r : regex) (s : str) : list mres :=
  match r with
  | Rep k lo hi =>
    map (fun n => ([], firstn n s, skipn n s)) (counts lo hi (run k s))
  | Group body =>
    map (fun '(c, t, s') => (t :: c, t, s')) (seq_matches matches body s)
  end.

(** [re.search(p, s)]: the groups of the leftmost match, group 0 first. *)
Fixpoint search (p : regex) (s : str) : option (list str) :=
  match matches p s with
  | (groups, _, _) :: _ => Some groups
  | [] =>
    match s with
    | [] => None
    | _ :: s' => search p s'
    end
  end.

(** [m.group(i)] *)
Definition group (m : list str) (i : nat) : result str := index m i.

(** *** Wage settings *)

Definition BASE_WAGE : Z := 1140.
Definition WEEKEND_WAGE : Z := 1290.
Definition WEEKDAY_AFTERNOON : Z := 1190.
Definition WEEKDAY_EVENING : Z := 1290.

Definition is_holiday_or_weekend (target_date : date.t) : bool :=
  if 5 <=? date.weekday target_date then true
  else if jpholiday_is_holiday target_date then true
  else false.

Definition parse_time (time_str : str) : result (Z * Z) :=
  let parts := split (chr ":") time_str in
  p0 <- index parts 0 ;;
  h <- int p0 ;;
  p1 <- index parts 1 ;;
  m <- int p1 ;;
  Ok (h, m).

Definition time_to_minutes (hour minute : Z) : Z := hour * 60 + minute.

Definition minutes_to_hours (minutes : Z) : result pynum :=
  num_truediv (PInt minutes) (PInt 60).

Definition calculate_overlap (start1 end1 start2 end2 : Z) : Z :=
  let overlap_start := Z.max start1 start2 in
  let overlap_end := Z.min end1 end2 in
  Z.max 0 (overlap_end - overlap_start).

(** One entry of a result's ["breakdown"] list. *)
Record segment : Set := {
  seg_type : str;
  seg_minutes : Z;
  seg_rate : Z;
  seg_amount : pynum
}.

(** The dict [calculate_daily_wage] returns. *)
Record daily : Set := {
  res_date : date.t;
  res_start : str;
  res_end : str;
  res_total_minutes : Z;
  res_wage : pynum;
  res_breakdown : list segment
}.

Definition set_wage (r : daily) (w : pynum) : daily :=
  {| res_date := res_date r; res_start := res_start r; res_end := res_end r;
     res_total_minutes := res_total_minutes r;
     res_wage := w; res_breakdown := res_breakdown r |}.

Definition append_breakdown (r : daily) (s : segment) : daily :=
  {| res_date := res_date r; res_start := res_start r; res_end := res_end r;
     res_total_minutes := res_total_minutes r;
     res_wage := res_wage r; res_breakdown := res_breakdown r ++ [s] |}.

(** One weekday band: [if minutes > 0: ...] adds the band's pay to [wage]
    and appends its entry. *)
Definition band (label : str) (minutes rate : Z) (st : pynum * daily)
  : result (pynum * daily) :=
  let '(wage, result) := st in
  if 0 <? minutes then
    hours <- minutes_to_hours minutes ;;
    band_wage <- num_mul hours (PInt rate) ;;
    wage <- num_add wage band_wage ;;
    Ok (wage,
        append_breakdown result
          {| seg_type := label; seg_minutes := minutes;
             seg_rate := rate; seg_amount := band_wage |})
  else Ok (wage, result).

Definition calculate_daily_wage (work_date : date.t) (start_time end_time : str)
  : result daily :=
  '(start_h, start_m) <- parse_time start_time ;;
  '(end_h, end_m) <- parse_time end_time ;;
  let start_minutes := time_to_minutes start_h start_m in
  let end_minutes := time_to_minutes end_h end_m in
  let total_minutes := end_minutes - start_minutes in
  let result :=
    {| res_date := work_date; res_start := start_time; res_end := end_time;
       res_total_minutes := total_minutes;
       res_wage := PInt 0; res_breakdown := [] |} in
  if is_holiday_or_weekend work_date then
    hours <- minutes_to_hours total_minutes ;;
    wage <- num_mul hours (PInt WEEKEND_WAGE) ;;
    let result := set_wage result wage in
    let result :=
      append_breakdown result
        {| seg_type := u "土日祝"; seg_minutes := total_minutes;
           seg_rate := WEEKEND_WAGE; seg_amount := wage |} in
    Ok result
  else
    let MORNING_END := time_to_minutes 13 0 in
    let AFTERNOON_END := time_to_minutes 17 0 in
    let wage := PInt 0 in
    let morning_minutes :=
      calculate_overlap start_minutes end_minutes 0 MORNING_END in
    st <- band (u "〜13:00") morning_minutes BASE_WAGE (wage, result) ;;
    let afternoon_minutes :=
      calculate_overlap start_minutes end_minutes MORNING_END AFTERNOON_END in
    st <- band (u "13:00〜17:00") afternoon_minutes WEEKDAY_AFTERNOON st ;;
    let evening_minutes :=
      calculate_overlap start_minutes end_minutes AFTERNOON_END
                        (time_to_minutes 24 0) in
    st <- band (u "17:00〜") evening_minutes WEEKDAY_EVENING st ;;
    let '(wage, result) := st in
    Ok (set_wage result wage).

(** One dict of the list [parse_shift_text] returns. *)
Record shift : Set := {
  shift_date : date.t;
  shift_start : str;
  shift_end : str
}.

(** What the loop body does with a line: it leaves through one of its six
    [continue] statements, or it appends a record. *)
Inductive skipped : Set :=
| Blank
| HeaderRow
| NoShift
| NoDate
| InvalidDate
| NoTime.

Inductive outcome : Set :=
| Skip (why : skipped)
| Emit (r : shift).

(** [r"(\d{1,2})/(\d{1,2})\([^)]+\)"] *)
Definition date_pattern : regex :=
  Group [ Group [Rep DigitClass 1 (Some 2%nat)];
          One (Lit (chr "/"));
          Group [Rep DigitClass 1 (Some 2%nat)];
          One (Lit (chr "("));
          Rep (NoneOf [chr ")"]) 1 None;
          One (Lit (chr ")")) ].

(** [r"(\d{1,2}:\d{2})[～〜](\d{1,2}:\d{2})"] *)
Definition time_pattern : regex :=
  Group [ Group [Rep DigitClass 1 (Some 2%nat); One (Lit (chr ":"));
                 Rep DigitClass 2 (Some 2%nat)];
          One (OneOf (u "～〜"));
          Group [Rep DigitClass 1 (Some 2%nat); One (Lit (chr ":"));
                 Rep DigitClass 2 (Some 2%nat)] ].

(** The year given to a month of the table (lines 176-181). *)
Definition resolve_year (current_year current_month month : Z) : Z :=
  if month <? current_month - 6 then current_year + 1
  else if month >? current_month + 6 then current_year - 1
  else current_year.

(** The body of [for line in lines]. *)
Definition loop_body (current_year current_month : Z) (line : str)
  : result outcome :=
  match strip line with
  | [] => Ok (Skip Blank)
  | _ :: _ =>
  if contains (u "日付") line && contains (u "勤務時間") line
  then Ok (Skip HeaderRow)
  else if contains (u "－") line || contains (u "ー") line
  then Ok (Skip NoShift)
  else
    match search date_pattern line with
    | None => Ok (Skip NoDate)
    | Some date_match =>
      g1 <- group date_match 1 ;;
      month <- int g1 ;;
      g2 <- group date_match 2 ;;
      day <- int g2 ;;
      let year := resolve_year current_year current_month month in
      match date.new year month day with
      | Raise ValueError => Ok (Skip InvalidDate)
      | Raise e => Raise e
      | Ok work_date =>
        match search time_pattern line with
        | None => Ok (Skip NoTime)
        | Some time_match =>
          start_time <- group time_match 1 ;;
          end_time <- group time_match 2 ;;
          let start_parts := split (chr ":") start_time in
          let end_parts := split (chr ":") end_time in
          sp0 <- index start_parts 0 ;;
          sh <- int sp0 ;;
          sp1 <- index start_parts 1 ;;
          let start_time := format_02d sh ++ u ":" ++ sp1 in
          ep0 <- index end_parts 0 ;;
          eh <- int ep0 ;;
          ep1 <- index end_parts 1 ;;
          let end_time := format_02d eh ++ u ":" ++ ep1 in
          Ok (Emit {| shift_date := work_date;
                      shift_start := start_time;
                      shift_end := end_time |})
        end
      end
    end
  end.

Fixpoint for_lines (current_year current_month : Z) (lines : list str)
         (shifts : list shift) : result (list shift) :=
  match lines with
  | [] => Ok shifts
  | line :: rest =>
    o <- loop_body current_year current_month line ;;
    for_lines current_year current_month rest
              match o with
              | Emit r => shifts ++ [r]
              | Skip _ => shifts
              end
  end.

(** [now_year] and [now_month] are what the two calls of [datetime.now()]
    return. *)
Definition parse_shift_text (now_year now_month : datetime.t) (text : str)
  : result (list shift) :=
  let lines := split NEWLINE (strip text) in
  let shifts := [] in
  let current_year := datetime.year now_year in
  let current_month := datetime.month now_month in
  for_lines current_year current_month lines shifts.

(** [format_minutes]: minutes as hours and minutes, the minutes left out
    when there are none.  [//] and [%] round towards minus infinity, as
    [Z.div] and [Z.modulo] do. *)
Definition format_minutes (minutes : Z) : str :=
  let hours := minutes / 60 in
  let mins := minutes mod 60 in
  if mins =? 0 then str_of_int hours ++ u "時間"
  else str_of_int hours ++ u "時間" ++ str_of_int mins ++ u "分".

(** What [main] has to show once the button is pressed: the warning for an
    empty text, the error for a text without shifts, or the results with
    their totals. *)
Inductive page : Set :=
| Warning
| Error
| Totals (results : list daily) (total_wage : pynum) (total_minutes : Z).

(** The loop [for shift in shifts] of [main]. *)
Fixpoint for_shifts (shifts : list shift) (results : list daily)
         (total_wage : pynum) (total_minutes : Z)
  : result (list daily * pynum * Z) :=
  match shifts with
  | [] => Ok (results, total_wage, total_minutes)
  | shift :: rest =>
    result <- calculate_daily_wage (shift_date shift) (shift_start shift)
                                   (shift_end shift) ;;
    let results := results ++ [result] in
    total_wage <- num_add total_wage (res_wage result) ;;
    let total_minutes := total_minutes + res_total_minutes result in
    for_shifts rest results total_wage total_minutes
  end.

(** The computation of [main] from the pressed button to the totals (lines
    265-286); the rendering of the page around it is left out. *)
Definition main_calculation (now_year now_month : datetime.t)
           (shift_text : str) : result page :=
  match strip shift_text with
  | [] => Ok Warning
  | _ :: _ =>
    shifts <- parse_shift_text now_year now_month shift_text ;;
    match shifts with
    | [] => Ok Error
    | _ :: _ =>
      let results := [] in
      let total_wage := PInt 0 in
      let total_minutes := 0 in
      '(results, total_wage, total_minutes)
        <- for_shifts shifts results total_wage total_minutes ;;
      Ok (Totals results total_wage total_minutes)
    end
  end.

(** ** The vocabulary of the specification

    Definitions written from the words of the specification, to state the
    properties with. *)

(** *** Wage calculator *)

(** amount = (duration_minutes / 60) × rate_per_hour, in the arithmetic
    of the program. *)
Definition hourly_pay (duration_minutes rate_per_hour : Z) : result pynum :=
  hours <- num_truediv (PInt duration_minutes) (PInt 60) ;;
  num_mul hours (PInt rate_per_hour).

(** The three fixed weekday bands: label, start, end, rate. *)
Definition spec_bands : list (str * Z * Z * Z) :=
  [ (u "〜13:00", 0, 13 * 60, 1140);
    (u "13:00〜17:00", 13 * 60, 17 * 60, 1190);
    (u "17:00〜", 17 * 60, 24 * 60, 1290) ].

(** max(0, min(end, bandEnd) − max(start, bandStart)) *)
Definition spec_overlap (start end_ band_start band_end : Z) : Z :=
  Z.max 0 (Z.min end_ band_end - Z.max start band_start).

(** Each band with the part of [start, end] that falls into it: label,
    overlap duration, rate. *)
Definition spec_intersections (start end_ : Z) : list (str * Z * Z) :=
  map (fun '(label, band_start, band_end, rate) =>
         (label, spec_overlap start end_ band_start band_end, rate))
      spec_bands.

(** A segment is emitted only if the overlap is positive. *)
Definition positive_overlap (b : str * Z * Z) : bool :=
  let '(_, duration, _) := b in 0 <? duration.

(** The entry of the breakdown is the segment of that band. *)
Definition segment_of (seg : segment) (b : str * Z * Z) : Prop :=
  let '(label, duration, rate) := b in
  seg_type seg = label /\ seg_minutes seg = duration /\ seg_rate seg = rate
  /\ hourly_pay duration rate = Ok (seg_amount seg).

(** Start of the band an entry stands for. *)
Definition band_start_of (seg : segment) : option Z :=
  match filter (fun '(label, _, _, _) => str_eqb label (seg_type seg))
               spec_bands with
  | (_, band_start, _, _) :: _ => Some band_start
  | [] => None
  end.

(** The band of the first entry starts before the band of the second. *)
Definition earlier_band (a b : segment) : Prop :=
  match band_start_of a, band_start_of b with
  | Some x, Some y => x < y
  | _, _ => False
  end.

(** Sum of the durations of a breakdown. *)
Definition sum_minutes (segs : list segment) : Z :=
  fold_right Z.add 0 (map seg_minutes segs).

(** [sum] of a list of numbers: additions from [0], left to right. *)
Fixpoint sum_from (acc : pynum) (xs : list pynum) : result pynum :=
  match xs with
  | [] => Ok acc
  | x :: xs' => acc' <- num_add acc x ;; sum_from acc' xs'
  end.

Definition py_sum (xs : list pynum) : result pynum := sum_from (PInt 0) xs.

(** The amount is exactly (duration / 60) × rate, as a rational number. *)
Definition exact_amount (seg : segment) : bool :=
  match seg_amount seg with
  | PInt z => z * 60 =? seg_minutes seg * seg_rate seg
  | PFloat f => float_is_ratio f (seg_minutes seg * seg_rate seg) 60
  end.

(** The amount is (duration / 60) × rate to within [2^-30]. *)
Definition near_amount (seg : segment) : bool :=
  match seg_amount seg with
  | PInt z => z * 60 =? seg_minutes seg * seg_rate seg
  | PFloat f => float_near_ratio f (seg_minutes seg * seg_rate seg) 60
  end.

(** *** Shift parser *)

(** The records among the outcomes of the lines, in order. *)
Definition emitted (outcomes : list outcome) : list shift :=
  flat_map (fun o => match o with Emit r => [r] | Skip _ => [] end) outcomes.

(** The header row: both column titles occur in the line. *)
Definition is_header_row (line : str) : bool :=
  contains (u "日付") line && contains (u "勤務時間") line.

(** The line carries one of the two dashes that mark a day off. *)
Definition has_no_shift_mark (line : str) : bool :=
  contains (u "－") line || contains (u "ー") line.

(** The line names a calendar date that does not exist. *)
Definition names_invalid_date (cy cm : Z) (line : str) : Prop :=
  exists dg g1 g2 month day,
    search date_pattern line = Some dg
    /\ group dg 1 = Ok g1 /\ int g1 = Ok month
    /\ group dg 2 = Ok g2 /\ int g2 = Ok day
    /\ date.new (resolve_year cy cm month) month day = Raise ValueError.

(** The line has no date token, no time-range token, or an invalid date. *)
Definition unparseable (cy cm : Z) (line : str) : Prop :=
  search date_pattern line = None
  \/ search time_pattern line = None
  \/ names_invalid_date cy cm line.

(** ** Auxiliary definitions of the proofs *)

(** Integers from [lo] to [hi]. *)
Definition zrange (lo hi : Z) : list Z :=
  map (fun n => lo + Z.of_nat n) (seq 0 (Z.to_nat (hi - lo + 1))).

(** What the proofs need of one amount: it is computed without an
    exception, adding it to [0] leaves it unchanged, it is within [2^-30] of
    the exact value, and it is not positive when the duration is not. *)
Definition pay_check (rate minutes : Z) : bool :=
  match hourly_pay minutes rate with
  | Ok (PFloat f) =>
    float_eqb (fadd (S754_zero false) f) f
    && float_near_ratio f (minutes * rate) 60
    && (if minutes <=? 0 then float_nonpos f else true)
  | _ => false
  end.

(** The running total is the initial [0] or a float. *)
Definition wage_ok (w : pynum) : Prop := w = PInt 0 \/ exists f, w = PFloat f.

(** A captured run of one to [n] decimal digits. *)
Definition digit_string (n : nat) (g : str) : Prop :=
  forallb isdecimal g = true /\ (1 <= List.length g <= n)%nat.

(** Two-digit formatting gives back the hour it was given. *)
Definition format_check (h : Z) : bool :=
  let s := format_02d h in
  forallb isdecimal s && (List.length s =? 2)%nat
  && match int s with Ok z => z =? h | Raise _ => false end.

(** The amount of one pay computation is exact. *)
Definition exact_check (rate minutes : Z) : bool :=
  match hourly_pay minutes rate with
  | Ok (PFloat f) => float_is_ratio f (minutes * rate) 60
  | _ => false
  end.

(** The string has no colon. *)
Definition no_colon (s : str) : bool :=
  forallb (fun c => negb (c =? chr ":")%N) s.

Definition SPACE : char := 32%N.

(** The text neither starts nor ends with whitespace (and is not empty). *)
Definition trimmed (t : str) : bool :=
  negb (isspace (hd SPACE t)) && negb (isspace (last t SPACE)).

(** The result is the one the calculator returns for the record. *)
Definition result_of (s : shift) (r : daily) : Prop :=
  calculate_daily_wage (shift_date s) (shift_start s) (shift_end s) = Ok r.

(** Sum of the [total_minutes] of a list of results. *)
Definition sum_total_minutes (results : list daily) : Z :=
  fold_right Z.add 0 (map res_total_minutes results).

(** The results [main] computes for the two sample rows: Thursday evening,
    180 minutes, 3870; Saturday afternoon, 270 minutes, 5805. *)
Definition sample_results : list daily :=
  [ {| res_date := thursday; res_start := u "17:00"; res_end := u "20:00";
       res_total_minutes := 180;
       res_wage := PFloat (of_int 3870);
       res_breakdown :=
         [{| seg_type := u "17:00〜"; seg_minutes := 180;
             seg_rate := 1290; seg_amount := PFloat (of_int 3870) |}] |};
    {| res_date := saturday; res_start := u "13:00"; res_end := u "17:30";
       res_total_minutes := 270;
       res_wage := PFloat (of_int 5805);
       res_breakdown :=
         [{| seg_type := u "土日祝"; seg_minutes := 270;
             seg_rate := 1290; seg_amount := PFloat (of_int 5805) |}] |} ].

(** ** Proofs *)

Lemma zrange_In (lo hi z : Z) : lo <= z <= hi -> In z (zrange lo hi).
Proof.
  intros Hz. unfold zrange. apply in_map_iff.
  exists (Z.to_nat (z - lo)). split; [lia |].
  apply in_seq. lia.
Qed.

Lemma float_eqb_eq (x y : float) : float_eqb x y = true -> x = y.
Proof.
  destruct x as [a | a | | a m e], y as [b | b | | b m' e'];
    simpl; try discriminate; try reflexivity; intros H.
  - apply Bool.eqb_prop in H. now subst.
  - apply Bool.eqb_prop in H. now subst.
  - apply andb_prop in H as [H He]. apply andb_prop in H as [Hs Hm].
    apply Bool.eqb_prop in Hs. apply Pos.eqb_eq in Hm. apply Z.eqb_eq in He.
    now subst.
Qed.

Lemma weekday_pay_check :
  forallb (fun '(_, band_start, band_end, rate) =>
             forallb (pay_check rate) (zrange 1 (band_end - band_start)))
          spec_bands = true.
Proof. vm_compute. reflexivity. Qed.

Lemma special_pay_check :
  forallb (pay_check WEEKEND_WAGE) (zrange (-6039) 6039) = true.
Proof. vm_compute. reflexivity. Qed.

Lemma pay_check_elim (rate m : Z) :
  pay_check rate m = true ->
  exists f, hourly_pay m rate = Ok (PFloat f)
            /\ fadd (S754_zero false) f = f
            /\ float_near_ratio f (m * rate) 60 = true
            /\ (m <= 0 -> float_nonpos f = true).
Proof.
  unfold pay_check.
  destruct (hourly_pay m rate) as [[z | f] | ]; try discriminate.
  intros H. apply andb_prop in H as [H H3]. apply andb_prop in H as [H1 H2].
  exists f. repeat split; auto using float_eqb_eq.
  intros Hm. destruct (m <=? 0) eqn:E; auto. apply Z.leb_gt in E. lia.
Qed.

Lemma num_add_float (w : pynum) (f : float) :
  wage_ok w -> exists g, num_add w (PFloat f) = Ok (PFloat g).
Proof. intros [-> | [g ->]]; eexists; reflexivity. Qed.

Lemma sum_from_app (xs ys : list pynum) :
  forall w, sum_from w (xs ++ ys) = (w' <- sum_from w xs ;; sum_from w' ys).
Proof.
  induction xs as [| x xs IH]; intros w; simpl; [reflexivity |].
  destruct (num_add w x); simpl; auto.
Qed.

Lemma append_all (segs : list segment) :
  forall r,
    fold_left append_breakdown segs r =
    {| res_date := res_date r; res_start := res_start r; res_end := res_end r;
       res_total_minutes := res_total_minutes r; res_wage := res_wage r;
       res_breakdown := res_breakdown r ++ segs |}.
Proof.
  induction segs as [| seg segs IH]; intros r; simpl.
  - destruct r; simpl. now rewrite app_nil_r.
  - rewrite IH. simpl. now rewrite <- app_assoc.
Qed.

Lemma band_unfold (label : str) (m rate : Z) (w : pynum) (r : daily) :
  band label m rate (w, r) =
  if 0 <? m then
    a <- hourly_pay m rate ;;
    w' <- num_add w a ;;
    Ok (w', append_breakdown r
              {| seg_type := label; seg_minutes := m; seg_rate := rate;
                 seg_amount := a |})
  else Ok (w, r).
Proof.
  unfold band, hourly_pay, minutes_to_hours.
  destruct (0 <? m); [| reflexivity].
  destruct (num_truediv (PInt m) (PInt 60)); reflexivity.
Qed.

Lemma band_spec (label : str) (m rate : Z) (w : pynum) (r : daily) :
  (0 < m -> pay_check rate m = true) ->
  wage_ok w ->
  exists w' segs,
    band label m rate (w, r) = Ok (w', fold_left append_breakdown segs r)
    /\ wage_ok w'
    /\ Forall2 segment_of segs (filter positive_overlap [(label, m, rate)])
    /\ sum_from w (map seg_amount segs) = Ok w'
    /\ Forall (fun seg => near_amount seg = true) segs.
Proof.
  intros Hpay Hw. rewrite band_unfold. simpl filter.
  destruct (0 <? m) eqn:Hm.
  - apply Z.ltb_lt in Hm.
    destruct (pay_check_elim _ _ (Hpay Hm)) as (a & Ha & _ & Hnear & _).
    destruct (num_add_float w a Hw) as (g & Hg).
    exists (PFloat g),
      [{| seg_type := label; seg_minutes := m; seg_rate := rate;
          seg_amount := PFloat a |}].
    rewrite Ha. simpl. rewrite Hg. simpl.
    repeat split.
    + right. now exists g.
    + constructor; [| constructor]. unfold segment_of. simpl. auto.
    + constructor; [| constructor]. exact Hnear.
  - exists w, []. simpl. repeat split; auto.
Qed.

Lemma overlap_pay_check (label : str) (band_start band_end rate s e : Z) :
  In (label, band_start, band_end, rate) spec_bands ->
  let m := calculate_overlap s e band_start band_end in
  0 < m -> pay_check rate m = true.
Proof.
  intros Hin m Hm.
  pose proof weekday_pay_check as H.
  rewrite forallb_forall in H. specialize (H _ Hin). simpl in H.
  rewrite forallb_forall in H. apply H. apply zrange_In.
  unfold m, calculate_overlap in *. lia.
Qed.

(** Everything the weekday branch does, for any pair of parsed times. *)
Lemma weekday_spec (d : date.t) (s e : str) (sh sm eh em : Z) :
  parse_time s = Ok (sh, sm) ->
  parse_time e = Ok (eh, em) ->
  is_holiday_or_weekend d = false ->
  let start := time_to_minutes sh sm in
  let end_ := time_to_minutes eh em in
  exists w segs,
    calculate_daily_wage d s e =
    Ok {| res_date := d; res_start := s; res_end := e;
          res_total_minutes := end_ - start;
          res_wage := w; res_breakdown := segs |}
    /\ wage_ok w
    /\ Forall2 segment_of segs
               (filter positive_overlap (spec_intersections start end_))
    /\ py_sum (map seg_amount segs) = Ok w
    /\ Forall (fun seg => near_amount seg = true) segs.
Proof.
  intros Hs He Hd start end_.
  unfold calculate_daily_wage. rewrite Hs, He. cbn [bind]. rewrite Hd. cbv zeta.
  fold start end_.
  set (r0 := {| res_date := d; res_start := s; res_end := e;
                res_total_minutes := end_ - start;
                res_wage := PInt 0; res_breakdown := [] |}).
  destruct (band_spec (u "〜13:00")
              (calculate_overlap start end_ 0 (time_to_minutes 13 0))
              BASE_WAGE (PInt 0) r0)
    as (w1 & s1 & E1 & Hw1 & F1 & S1 & N1).
  { apply overlap_pay_check with (label := u "〜13:00"). simpl. auto. }
  { now left. }
  destruct (band_spec (u "13:00〜17:00")
              (calculate_overlap start end_ (time_to_minutes 13 0)
                                 (time_to_minutes 17 0))
              WEEKDAY_AFTERNOON w1 (fold_left append_breakdown s1 r0))
    as (w2 & s2 & E2 & Hw2 & F2 & S2 & N2).
  { apply overlap_pay_check with (label := u "13:00〜17:00"). simpl. auto. }
  { exact Hw1. }
  destruct (band_spec (u "17:00〜")
              (calculate_overlap start end_ (time_to_minutes 17 0)
                                 (time_to_minutes 24 0))
              WEEKDAY_EVENING w2
              (fold_left append_breakdown s2 (fold_left append_breakdown s1 r0)))
    as (w3 & s3 & E3 & Hw3 & F3 & S3 & N3).
  { apply overlap_pay_check with (label := u "17:00〜"). simpl. auto. }
  { exact Hw2. }
  rewrite E1. cbn [bind]. rewrite E2. cbn [bind]. rewrite E3. cbn [bind].
  exists w3, (s1 ++ s2 ++ s3).
  repeat split.
  - rewrite !append_all. unfold set_wage. simpl. now rewrite <- app_assoc.
  - exact Hw3.
  - change (spec_intersections start end_)
      with ([(u "〜13:00", calculate_overlap start end_ 0 (time_to_minutes 13 0),
              BASE_WAGE)]
            ++ [(u "13:00〜17:00",
                 calculate_overlap start end_ (time_to_minutes 13 0)
                                   (time_to_minutes 17 0),
                 WEEKDAY_AFTERNOON)]
            ++ [(u "17:00〜",
                 calculate_overlap start end_ (time_to_minutes 17 0)
                                   (time_to_minutes 24 0),
                 WEEKDAY_EVENING)]).
    rewrite !filter_app. auto using Forall2_app.
  - unfold py_sum. rewrite !map_app, sum_from_app, S1. cbn [bind].
    rewrite sum_from_app, S2. cbn [bind]. exact S3.
  - rewrite !Forall_app. auto.
Qed.

(** Everything the weekend/holiday branch does, for times whose fields have
    at most two digits. *)
Lemma special_spec (d : date.t) (s e : str) (sh sm eh em : Z) :
  parse_time s = Ok (sh, sm) ->
  parse_time e = Ok (eh, em) ->
  is_holiday_or_weekend d = true ->
  let total := time_to_minutes eh em - time_to_minutes sh sm in
  -6039 <= total <= 6039 ->
  exists f,
    calculate_daily_wage d s e =
    Ok {| res_date := d; res_start := s; res_end := e;
          res_total_minutes := total;
          res_wage := PFloat f;
          res_breakdown :=
            [{| seg_type := u "土日祝"; seg_minutes := total;
                seg_rate := WEEKEND_WAGE; seg_amount := PFloat f |}] |}
    /\ hourly_pay total WEEKEND_WAGE = Ok (PFloat f)
    /\ fadd (S754_zero false) f = f
    /\ float_near_ratio f (total * WEEKEND_WAGE) 60 = true
    /\ (total <= 0 -> float_nonpos f = true).
Proof.
  intros Hs He Hd total Htotal.
  pose proof special_pay_check as H. rewrite forallb_forall in H.
  destruct (pay_check_elim _ _ (H total (zrange_In _ _ _ Htotal)))
    as (f & Hf & H0 & Hnear & Hneg).
  exists f. repeat split; auto.
  unfold calculate_daily_wage. rewrite Hs, He. cbn [bind]. rewrite Hd.
  fold total. unfold hourly_pay, minutes_to_hours in *.
  destruct (num_truediv (PInt total) (PInt 60)) as [h | ]; [| discriminate].
  cbn [bind] in Hf |- *. rewrite Hf. reflexivity.
Qed.

Lemma segment_of_pay (segs : list segment) (bs : list (str * Z * Z)) :
  Forall2 segment_of segs bs ->
  Forall (fun seg =>
            hourly_pay (seg_minutes seg) (seg_rate seg) = Ok (seg_amount seg))
         segs.
Proof.
  induction 1 as [| seg [[label duration] rate] segs bs (_ & Hm & Hr & Hp) _ IH];
    constructor; auto.
  now rewrite Hm, Hr.
Qed.

(** C1. On a day that is neither weekend nor holiday, for a shift with
    0 <= start < end <= 24:00 (minutes since midnight), the calculator
    returns a result whose breakdown is exactly the three bands [0, 13:00),
    [13:00, 17:00), [17:00, 24:00) intersected with the shift, each with
    duration max(0, min(end, bandEnd) - max(start, bandStart)), kept only
    when that duration is positive, at rates 1140, 1190 and 1290, in
    morning, afternoon, evening order. *)
Theorem weekday_segments_are_band_intersections
        (d : date.t) (s e : str) (sh sm eh em : Z) :
  parse_time s = Ok (sh, sm) ->
  parse_time e = Ok (eh, em) ->
  is_holiday_or_weekend d = false ->
  0 <= time_to_minutes sh sm < time_to_minutes eh em ->
  time_to_minutes eh em <= 24 * 60 ->
  exists r,
    calculate_daily_wage d s e = Ok r
    /\ Forall2 segment_of (res_breakdown r)
         (filter positive_overlap
            (spec_intersections (time_to_minutes sh sm)
                                (time_to_minutes eh em))).
Proof.
  intros Hs He Hd _ _.
  destruct (weekday_spec d s e sh sm eh em Hs He Hd)
    as (w & segs & E & _ & F & _).
  eexists. split; [exact E | exact F].
Qed.

(** C2. On a weekend or holiday the calculator returns exactly one
    segment, labelled weekend/holiday, whose duration is the whole
    total_minutes and whose rate is 1290, whatever the start and end times
    are (hours and minutes of at most two digits, as the parser writes
    them); no banding is applied. *)
Theorem special_day_single_segment
        (d : date.t) (s e : str) (sh sm eh em : Z) :
  parse_time s = Ok (sh, sm) ->
  parse_time e = Ok (eh, em) ->
  0 <= sh <= 99 -> 0 <= sm <= 99 -> 0 <= eh <= 99 -> 0 <= em <= 99 ->
  is_holiday_or_weekend d = true ->
  exists r amount,
    calculate_daily_wage d s e = Ok r
    /\ res_total_minutes r = time_to_minutes eh em - time_to_minutes sh sm
    /\ res_breakdown r =
       [{| seg_type := u "土日祝";
           seg_minutes := res_total_minutes r;
           seg_rate := 1290;
           seg_amount := amount |}]
    /\ hourly_pay (res_total_minutes r) 1290 = Ok amount
    /\ res_wage r = amount.
Proof.
  intros Hs He Hsh Hsm Heh Hem Hd.
  destruct (special_spec d s e sh sm eh em Hs He Hd) as (f & E & Hp & _).
  { unfold time_to_minutes. lia. }
  eexists. exists (PFloat f). split; [exact E |].
  cbn [res_total_minutes res_breakdown res_wage]. auto.
Qed.

(** C5. A shift from 09:00 to 18:00 on a day that is neither weekend nor
    holiday gives three segments: 240 minutes at 1140 (4560), 240 minutes at
    1190 (4760) and 60 minutes at 1290 (1290); the total amount is 10610 and
    total_minutes is 540. *)
Theorem weekday_0900_1800 (d : date.t) :
  is_holiday_or_weekend d = false ->
  calculate_daily_wage d (u "09:00") (u "18:00") =
  Ok {| res_date := d; res_start := u "09:00"; res_end := u "18:00";
        res_total_minutes := 540;
        res_wage := PFloat (of_int 10610);
        res_breakdown :=
          [ {| seg_type := u "〜13:00"; seg_minutes := 240;
               seg_rate := 1140; seg_amount := PFloat (of_int 4560) |};
            {| seg_type := u "13:00〜17:00"; seg_minutes := 240;
               seg_rate := 1190; seg_amount := PFloat (of_int 4760) |};
            {| seg_type := u "17:00〜"; seg_minutes := 60;
               seg_rate := 1290; seg_amount := PFloat (of_int 1290) |} ] |}.
Proof.
  intros Hd. unfold calculate_daily_wage.
  replace (parse_time (u "09:00")) with (Ok (A := Z * Z) (9, 0))
    by (vm_compute; reflexivity).
  replace (parse_time (u "18:00")) with (Ok (A := Z * Z) (18, 0))
    by (vm_compute; reflexivity).
  cbn [bind]. rewrite Hd. vm_compute. reflexivity.
Qed.

Ltac invert_segments :=
  repeat match goal with
         | H : Forall2 segment_of _ (_ :: _) |- _ =>
           inversion H; subst; clear H
         | H : Forall2 segment_of _ [] |- _ =>
           inversion H; subst; clear H
         | H : segment_of _ _ |- _ =>
           let Ht := fresh "Ht" in
           let Hm := fresh "Hm" in
           let Hr := fresh "Hr" in
           let Hp := fresh "Hp" in
           destruct H as (Ht & Hm & Hr & Hp)
         end.

Ltac order_by_label :=
  unfold earlier_band, band_start_of;
  repeat match goal with
         | H : seg_type _ = _ |- _ => rewrite H; clear H
         end;
  reflexivity.

(** C4. On a day that is neither weekend nor holiday, for a shift with
    0 <= start < end <= 24:00, the durations of the emitted segments add up
    to total_minutes = end - start, and the segments come in the
    chronological order of their bands. *)
Theorem weekday_durations_sum_to_total
        (d : date.t) (s e : str) (sh sm eh em : Z) :
  parse_time s = Ok (sh, sm) ->
  parse_time e = Ok (eh, em) ->
  is_holiday_or_weekend d = false ->
  0 <= time_to_minutes sh sm < time_to_minutes eh em ->
  time_to_minutes eh em <= 24 * 60 ->
  exists r,
    calculate_daily_wage d s e = Ok r
    /\ res_total_minutes r = time_to_minutes eh em - time_to_minutes sh sm
    /\ sum_minutes (res_breakdown r) = res_total_minutes r
    /\ StronglySorted earlier_band (res_breakdown r).
Proof.
  intros Hs He Hd Hlt Hle.
  destruct (weekday_spec d s e sh sm eh em Hs He Hd)
    as (w & segs & E & _ & F & _).
  eexists. split; [exact E |]. cbn [res_total_minutes res_breakdown].
  split; [reflexivity |].
  set (start := time_to_minutes sh sm) in *.
  set (end_ := time_to_minutes eh em) in *.
  cbn [spec_intersections spec_bands map filter positive_overlap] in F.
  destruct (0 <? spec_overlap start end_ 0 (13 * 60)) eqn:E1,
           (0 <? spec_overlap start end_ (13 * 60) (17 * 60)) eqn:E2,
           (0 <? spec_overlap start end_ (17 * 60) (24 * 60)) eqn:E3;
    invert_segments;
    rewrite ?Z.ltb_lt, ?Z.ltb_ge in *;
    (split;
     [ unfold sum_minutes; cbn [map fold_right seg_minutes];
       unfold spec_overlap in *; lia
     | repeat constructor; order_by_label ]).
Qed.

Lemma add_to_zero (f : float) :
  fadd (S754_zero false) f = f -> py_sum [PFloat f] = Ok (PFloat f).
Proof.
  intros H. unfold py_sum, sum_from.
  replace (num_add (PInt 0) (PFloat f))
    with (Ok (PFloat (fadd (S754_zero false) f))) by reflexivity.
  now rewrite H.
Qed.

(** C3, as the code has it.  For every shift record (time fields of at most
    two digits, as the parser writes them) the calculator returns a result
    whose wage is the sum of the amounts of its segments, added from 0 in
    order; each amount is the value of (duration_minutes / 60) × rate in
    binary64 arithmetic, with no rounding to currency units, and it lies
    within 2^-30 of the exact product. *)
Theorem wage_is_sum_of_segment_amounts
        (d : date.t) (s e : str) (sh sm eh em : Z) :
  parse_time s = Ok (sh, sm) ->
  parse_time e = Ok (eh, em) ->
  0 <= sh <= 99 -> 0 <= sm <= 99 -> 0 <= eh <= 99 -> 0 <= em <= 99 ->
  exists r,
    calculate_daily_wage d s e = Ok r
    /\ py_sum (map seg_amount (res_breakdown r)) = Ok (res_wage r)
    /\ Forall (fun seg =>
                 hourly_pay (seg_minutes seg) (seg_rate seg)
                 = Ok (seg_amount seg)
                 /\ near_amount seg = true)
              (res_breakdown r).
Proof.
  intros Hs He Hsh Hsm Heh Hem.
  destruct (is_holiday_or_weekend d) eqn:Hd.
  - destruct (special_spec d s e sh sm eh em Hs He Hd)
      as (f & E & Hp & H0 & Hnear & _).
    { unfold time_to_minutes. lia. }
    eexists. split; [exact E |]. cbn [res_breakdown res_wage map].
    split; [now apply add_to_zero |].
    constructor; [| constructor]. split; [exact Hp | exact Hnear].
  - destruct (weekday_spec d s e sh sm eh em Hs He Hd)
      as (w & segs & E & _ & F & S & N).
    eexists. split; [exact E |]. cbn [res_breakdown res_wage].
    split; [exact S |].
    apply segment_of_pay in F. rewrite Forall_forall in *. auto.
Qed.

(** C10, as the code has it.  When the end time is not after the start
    time the calculator still returns a result, with total_minutes =
    end - start <= 0.  On a day that is neither weekend nor holiday the
    breakdown is empty and the wage is the integer 0, so the durations add
    up to total_minutes exactly when end = start.  On a weekend or holiday
    there is one segment, whose duration is total_minutes and whose amount
    is zero or negative. *)
Theorem end_not_after_start
        (d : date.t) (s e : str) (sh sm eh em : Z) :
  parse_time s = Ok (sh, sm) ->
  parse_time e = Ok (eh, em) ->
  0 <= sh <= 99 -> 0 <= sm <= 99 -> 0 <= eh <= 99 -> 0 <= em <= 99 ->
  time_to_minutes eh em <= time_to_minutes sh sm ->
  exists r,
    calculate_daily_wage d s e = Ok r
    /\ res_total_minutes r = time_to_minutes eh em - time_to_minutes sh sm
    /\ res_total_minutes r <= 0
    /\ (is_holiday_or_weekend d = false ->
        res_breakdown r = []
        /\ res_wage r = PInt 0
        /\ (sum_minutes (res_breakdown r) = res_total_minutes r
            <-> time_to_minutes eh em = time_to_minutes sh sm))
    /\ (is_holiday_or_weekend d = true ->
        exists f,
          res_breakdown r =
          [{| seg_type := u "土日祝"; seg_minutes := res_total_minutes r;
              seg_rate := 1290; seg_amount := PFloat f |}]
          /\ float_nonpos f = true).
Proof.
  intros Hs He Hsh Hsm Heh Hem Hle.
  destruct (is_holiday_or_weekend d) eqn:Hd.
  - destruct (special_spec d s e sh sm eh em Hs He Hd)
      as (f & E & _ & _ & _ & Hneg).
    { unfold time_to_minutes. lia. }
    eexists. split; [exact E |]. cbn [res_total_minutes res_breakdown].
    repeat split; try lia; try discriminate.
    intros _. exists f. split; [reflexivity | apply Hneg; lia].
  - destruct (weekday_spec d s e sh sm eh em Hs He Hd)
      as (w & segs & E & _ & F & S & _).
    eexists. split; [exact E |].
    cbn [res_total_minutes res_breakdown res_wage].
    set (start := time_to_minutes sh sm) in *.
    set (end_ := time_to_minutes eh em) in *.
    cbn [spec_intersections spec_bands map filter positive_overlap] in F.
    replace (0 <? spec_overlap start end_ 0 (13 * 60)) with false in F
      by (symmetry; apply Z.ltb_ge; unfold spec_overlap; lia).
    replace (0 <? spec_overlap start end_ (13 * 60) (17 * 60)) with false in F
      by (symmetry; apply Z.ltb_ge; unfold spec_overlap; lia).
    replace (0 <? spec_overlap start end_ (17 * 60) (24 * 60)) with false in F
      by (symmetry; apply Z.ltb_ge; unfold spec_overlap; lia).
    inversion F; subst. cbn in S. injection S as <-.
    repeat split; try lia; try discriminate.
    + unfold sum_minutes. cbn. lia.
    + unfold sum_minutes. cbn. lia.
Qed.

(** *** Strings *)

Lemma lstrip_nil (s : str) : lstrip s = [] -> forallb isspace s = true.
Proof.
  induction s as [| c s IH]; simpl; auto.
  destruct (isspace c); [auto | discriminate].
Qed.

Lemma lstrip_head (s : str) (c : char) (t : str) :
  lstrip s = c :: t -> isspace c = false.
Proof.
  induction s as [| a s IH]; simpl; [discriminate |].
  destruct (isspace a) eqn:E; auto.
  intros H. injection H as -> _. exact E.
Qed.

Lemma strip_nil (s : str) : strip s = [] -> forallb isspace s = true.
Proof.
  unfold strip. intros H.
  assert (H1 : lstrip (rev (lstrip s)) = []).
  { destruct (lstrip (rev (lstrip s))); auto.
    simpl in H. apply app_eq_nil in H as [_ H]. discriminate. }
  apply lstrip_nil in H1.
  destruct (lstrip s) as [| c t] eqn:E; [now apply lstrip_nil |].
  apply lstrip_head in E. rewrite forallb_forall in H1.
  rewrite (H1 c) in E; [discriminate |].
  apply -> in_rev. now left.
Qed.

Lemma contains_In (c : char) (needle s : str) :
  contains (c :: needle) s = true -> In c s.
Proof.
  induction s as [| a s IH]; simpl; [discriminate |].
  destruct (c =? a)%N eqn:E.
  - apply N.eqb_eq in E. auto.
  - simpl. auto.
Qed.

(** A line that contains a word starting with a visible character is not
    blank. *)
Lemma contains_not_blank (c : char) (needle line : str) :
  contains (c :: needle) line = true -> isspace c = false ->
  strip line <> [].
Proof.
  intros H Hc Hs. apply strip_nil in Hs. rewrite forallb_forall in Hs.
  apply contains_In in H. rewrite (Hs _ H) in Hc. discriminate.
Qed.

Lemma split_no_sep (sep : char) (s : str) :
  forallb (fun c => negb (c =? sep)%N) s = true -> split sep s = [s].
Proof.
  induction s as [| c s IH]; simpl; [reflexivity |].
  intros H. apply andb_prop in H as [Hc Hs].
  apply negb_true_iff in Hc. rewrite Hc, (IH Hs). reflexivity.
Qed.

Lemma split_app_sep (sep : char) (h t : str) :
  forallb (fun c => negb (c =? sep)%N) h = true ->
  split sep (h ++ sep :: t) = h :: split sep t.
Proof.
  induction h as [| c h IH]; simpl.
  - now rewrite N.eqb_refl.
  - intros H. apply andb_prop in H as [Hc Hs].
    apply negb_true_iff in Hc. rewrite Hc, (IH Hs). reflexivity.
Qed.

(** *** Regular expressions *)

Lemma in_counts (lo : nat) (hi : option nat) (avail n : nat) :
  In n (counts lo hi avail) ->
  (lo <= n <= avail)%nat /\ (forall h, hi = Some h -> (n <= h)%nat).
Proof.
  unfold counts. intros H. apply in_rev in H. apply in_seq in H.
  split; [destruct hi; lia |]. intros h ->. lia.
Qed.

Lemma run_firstn (k : cclass) (s : str) :
  forall n, (n <= run k s)%nat ->
            forallb (in_class k) (firstn n s) = true
            /\ List.length (firstn n s) = n.
Proof.
  induction s as [| c s IH]; intros [| n] Hn; simpl in *; auto; try lia.
  destruct (in_class k c) eqn:E; [| lia].
  destruct (IH n) as [H1 H2]; [lia |]. simpl. rewrite H1, H2. auto.
Qed.

Lemma in_matches_rep (k : cclass) (lo : nat) (hi : option nat)
      (s : str) (c : list str) (t rest : str) :
  In (c, t, rest) (matches (Rep k lo hi) s) ->
  c = [] /\ s = t ++ rest
  /\ forallb (in_class k) t = true
  /\ (lo <= List.length t)%nat
  /\ (forall h, hi = Some h -> (List.length t <= h)%nat).
Proof.
  simpl. intros H. apply in_map_iff in H as (n & E & Hn).
  injection E as <- <- <-. apply in_counts in Hn as [[Hlo Hav] Hhi].
  destruct (run_firstn k s n Hav) as [Hall Hlen].
  rewrite Hlen. repeat split; auto.
  symmetry. apply firstn_skipn.
Qed.

Lemma in_seq_matches_nil (f : regex -> str -> list mres)
      (s : str) (c : list str) (t rest : str) :
  In (c, t, rest) (seq_matches f [] s) -> c = [] /\ t = [] /\ rest = s.
Proof.
  simpl. intros [E | []]. injection E as <- <- <-. auto.
Qed.

Lemma in_seq_matches_cons (f : regex -> str -> list mres)
      (r : regex) (rs : list regex) (s : str)
      (c : list str) (t rest : str) :
  In (c, t, rest) (seq_matches f (r :: rs) s) ->
  exists c1 t1 s1 c2 t2,
    In (c1, t1, s1) (f r s)
    /\ In (c2, t2, rest) (seq_matches f rs s1)
    /\ c = c1 ++ c2 /\ t = t1 ++ t2.
Proof.
  simpl. intros H. apply in_flat_map in H as ([[c1 t1] s1] & H1 & H).
  apply in_map_iff in H as ([[c2 t2] s2] & E & H2).
  injection E as <- <- <-.
  exists c1, t1, s1, c2, t2. auto.
Qed.

Lemma in_matches_group (body : list regex) (s : str)
      (c : list str) (t rest : str) :
  In (c, t, rest) (matches (Group body) s) ->
  exists c', c = t :: c' /\ In (c', t, rest) (seq_matches matches body s).
Proof.
  simpl. intros H. apply in_map_iff in H as ([[c' t'] s'] & E & H).
  injection E as <- <- <-. eauto.
Qed.

Lemma search_some (p : regex) (s : str) (g : list str) :
  search p s = Some g ->
  exists s' t rest, In (g, t, rest) (matches p s').
Proof.
  induction s as [| a s IH]; simpl;
    destruct (matches p _) as [| [[g' t] r] l] eqn:E; intros H;
    try discriminate; auto.
  - injection H as <-. exists [], t, r. rewrite E. now left.
  - injection H as <-. exists (a :: s), t, r. rewrite E. now left.
Qed.

Ltac invert_match :=
  repeat match goal with
         | H : In _ (matches (Group _) _) |- _ =>
           apply in_matches_group in H; destruct H as (? & -> & H)
         | H : In _ (seq_matches matches (_ :: _) _) |- _ =>
           let H1 := fresh "M" in
           let H2 := fresh "M" in
           apply in_seq_matches_cons in H;
           destruct H as (? & ? & ? & ? & ? & H1 & H2 & ? & ?); subst
         | H : In _ (seq_matches matches [] _) |- _ =>
           apply in_seq_matches_nil in H; destruct H as (? & ? & ?); subst
         | H : In _ (matches (Rep _ _ _) _) |- _ =>
           apply in_matches_rep in H;
           destruct H as (? & ? & ? & ? & ?); subst
         | H : In _ (matches (One _) _) |- _ => unfold One in H
         end.

Ltac use_bounds :=
  repeat match goal with
         | H : forall h : nat, Some _ = Some h -> _ |- _ =>
           specialize (H _ eq_refl)
         | H : forall h : nat, None = Some h -> _ |- _ => clear H
         end.

Lemma date_match_groups (s : str) (g : list str) (t rest : str) :
  In (g, t, rest) (matches date_pattern s) ->
  exists g1 g2, g = [t; g1; g2] /\ digit_string 2 g1 /\ digit_string 2 g2.
Proof.
  unfold date_pattern. intros H. invert_match. use_bounds.
  rewrite !app_nil_r. cbn [app].
  do 2 eexists. split; [reflexivity |].
  unfold digit_string. auto.
Qed.

Lemma one_literal (x : char) (t : str) :
  forallb (in_class (Lit x)) t = true ->
  (1 <= List.length t)%nat -> (List.length t <= 1)%nat -> t = [x].
Proof.
  destruct t as [| c [| c' t]]; simpl; try lia.
  rewrite andb_true_r. intros H _ _. apply N.eqb_eq in H. now subst.
Qed.

Lemma time_match_groups (s : str) (g : list str) (t rest : str) :
  In (g, t, rest) (matches time_pattern s) ->
  exists h1 m1 h2 m2,
    g = [t; h1 ++ chr ":" :: m1; h2 ++ chr ":" :: m2]
    /\ digit_string 2 h1 /\ digit_string 2 m1
    /\ digit_string 2 h2 /\ digit_string 2 m2.
Proof.
  unfold time_pattern. intros H. invert_match. use_bounds.
  repeat match goal with
         | H : forallb (in_class (Lit ?x)) ?t = true |- _ =>
           apply one_literal in H; [subst t | assumption | assumption]
         end.
  rewrite !app_nil_r. cbn [app].
  do 4 eexists. split; [reflexivity |].
  unfold digit_string. repeat split; auto; lia.
Qed.

(** *** [int()] on what the patterns capture *)

Lemma digits_value_some (s : str) :
  forallb isdecimal s = true ->
  forall acc, exists z, digits_value acc s = Some z.
Proof.
  unfold isdecimal.
  induction s as [| c s IH]; simpl; intros H acc; [eauto |].
  destruct (decimal c); [| discriminate]. apply IH. exact H.
Qed.

Lemma int_digit_string (n : nat) (g : str) :
  digit_string n g -> exists z, int g = Ok z.
Proof.
  intros [Hall Hlen]. destruct g as [| c g]; [simpl in Hlen; lia |].
  unfold int. destruct (digits_value_some _ Hall 0) as [z ->]. eauto.
Qed.

Lemma digit_string_no_colon (n : nat) (g : str) :
  digit_string n g ->
  forallb (fun c => negb (c =? chr ":")%N) g = true.
Proof.
  intros [Hall _]. rewrite forallb_forall in *. intros c Hc.
  specialize (Hall c Hc). apply negb_true_iff.
  destruct (N.eqb_spec c (chr ":")) as [-> |]; [| reflexivity].
  cbv in Hall. discriminate.
Qed.

Lemma split_clock (n : nat) (h m : str) :
  digit_string n h -> digit_string n m ->
  split (chr ":") (h ++ chr ":" :: m) = [h; m].
Proof.
  intros Hh Hm.
  rewrite split_app_sep by eauto using digit_string_no_colon.
  rewrite split_no_sep by eauto using digit_string_no_colon.
  reflexivity.
Qed.

Lemma date_new_cases (y m d : Z) :
  date.new y m d = Raise ValueError \/ date.new y m d = Ok (date.make y m d).
Proof.
  unfold date.new.
  repeat match goal with
         | |- context [if ?b then _ else _] => destruct b
         end; auto.
Qed.

(** *** The loop body *)

(** The loop body never raises. *)
Lemma loop_body_returns (cy cm : Z) (line : str) :
  exists o, loop_body cy cm line = Ok o.
Proof.
  unfold loop_body.
  destruct (strip line); [eauto |].
  destruct (_ && _); [eauto |].
  destruct (_ || _); [eauto |].
  destruct (search date_pattern line) as [dg |] eqn:Ed; [| eauto].
  apply search_some in Ed as (s1 & t1 & r1 & Ed).
  apply date_match_groups in Ed as (g1 & g2 & -> & Hg1 & Hg2).
  destruct (int_digit_string _ _ Hg1) as [month Hmonth].
  destruct (int_digit_string _ _ Hg2) as [day Hday].
  cbn [group index nth_error bind]. rewrite Hmonth. cbn [bind].
  rewrite Hday. cbn [bind].
  destruct (date_new_cases (resolve_year cy cm month) month day) as [-> | ->];
    [eauto |].
  destruct (search time_pattern line) as [tg |] eqn:Et; [| eauto].
  apply search_some in Et as (s2 & t2 & r2 & Et).
  apply time_match_groups
    in Et as (h1 & m1 & h2 & m2 & -> & Hh1 & Hm1 & Hh2 & Hm2).
  cbn [group index nth_error bind].
  rewrite (split_clock 2 h1 m1), (split_clock 2 h2 m2) by assumption.
  destruct (int_digit_string _ _ Hh1) as [sh Hsh].
  destruct (int_digit_string _ _ Hh2) as [eh Heh].
  cbn [index nth_error bind]. rewrite Hsh. cbn [bind].
  rewrite Heh. cbn [bind]. eauto.
Qed.

Lemma for_lines_spec (cy cm : Z) (lines : list str) :
  forall shifts,
  exists outcomes,
    Forall2 (fun line o => loop_body cy cm line = Ok o) lines outcomes
    /\ for_lines cy cm lines shifts = Ok (shifts ++ emitted outcomes).
Proof.
  induction lines as [| line lines IH]; intros shifts; simpl.
  - exists []. split; [constructor | now rewrite app_nil_r].
  - destruct (loop_body_returns cy cm line) as [o Ho]. rewrite Ho.
    cbn [bind].
    destruct (IH (match o with Emit r => shifts ++ [r] | Skip _ => shifts end))
      as (os & F & E).
    exists (o :: os). split; [constructor; assumption |].
    rewrite E. destruct o; simpl; [reflexivity | now rewrite <- app_assoc].
Qed.

Ltac step_bind H :=
  match type of H with
  | bind ?c _ = _ =>
    let E := fresh "E" in
    destruct c eqn:E; [cbn [bind] in H | discriminate H]
  end.

(** What a line that yields a record went through. *)
Lemma loop_body_emit (cy cm : Z) (line : str) (r : shift) :
  loop_body cy cm line = Ok (Emit r) ->
  exists dg g1 g2 month day tg,
    search date_pattern line = Some dg
    /\ group dg 1 = Ok g1 /\ int g1 = Ok month
    /\ group dg 2 = Ok g2 /\ int g2 = Ok day
    /\ date.new (resolve_year cy cm month) month day = Ok (shift_date r)
    /\ search time_pattern line = Some tg.
Proof.
  unfold loop_body. intros H.
  destruct (strip line); [discriminate |].
  destruct (_ && _); [discriminate |].
  destruct (_ || _); [discriminate |].
  destruct (search date_pattern line) as [dg |]; [| discriminate].
  do 4 step_bind H.
  destruct (date.new _ _ _) as [work_date | ex] eqn:En;
    [| destruct ex; discriminate].
  destruct (search time_pattern line) as [tg |]; [| discriminate].
  do 8 step_bind H.
  injection H as <-. simpl. do 6 eexists. eauto 10.
Qed.

Lemma unparseable_skipped (cy cm : Z) (line : str) (o : outcome) :
  loop_body cy cm line = Ok o ->
  unparseable cy cm line ->
  exists why, o = Skip why.
Proof.
  intros Ho Hbad. destruct o as [why | r]; [eauto |]. exfalso.
  apply loop_body_emit
    in Ho as (dg & g1 & g2 & month & day & tg & Ed & E1 & Em & E2 & Eday
              & En & Et).
  destruct Hbad as [Hd | [Ht | (dg' & g1' & g2' & m' & d' & Hd & F1 & Fm & F2
                                & Fd & Fn)]];
    congruence.
Qed.

(** C6. [parse_shift_text] never raises.  Every line is processed; a line
    without a date token, without a time-range token, or naming a date that
    does not exist in the calendar is left out, the lines after it are still
    processed, and the value returned is the sequence of the records of the
    lines that were parsed, in order (possibly empty). *)
Theorem parse_never_raises (now_year now_month : datetime.t) (text : str) :
  let cy := datetime.year now_year in
  let cm := datetime.month now_month in
  exists outcomes,
    Forall2 (fun line o => loop_body cy cm line = Ok o)
            (split NEWLINE (strip text)) outcomes
    /\ parse_shift_text now_year now_month text = Ok (emitted outcomes)
    /\ Forall2 (fun line o => unparseable cy cm line -> exists why, o = Skip why)
               (split NEWLINE (strip text)) outcomes.
Proof.
  intros cy cm. unfold parse_shift_text. fold cy cm.
  destruct (for_lines_spec cy cm (split NEWLINE (strip text)) [])
    as (outcomes & F & E).
  exists outcomes. repeat split; auto.
  revert F. apply Forall2_impl. intros line o Ho.
  now apply unparseable_skipped.
Qed.

(** C7. A line that contains both header words, or one of the no-shift
    marks, yields no record; the loop leaves through the header check or
    the no-shift check, which come before the date and time patterns are
    tried. *)
Theorem header_and_no_shift_lines_skipped (cy cm : Z) (line : str) :
  is_header_row line = true \/ has_no_shift_mark line = true ->
  loop_body cy cm line =
  Ok (Skip (if is_header_row line then HeaderRow else NoShift)).
Proof.
  unfold is_header_row, has_no_shift_mark, loop_body. intros H.
  destruct (strip line) as [| c t] eqn:Es.
  - exfalso. revert Es.
    destruct H as [H | H].
    + apply andb_prop in H as [H _].
      now apply (contains_not_blank _ _ _ H).
    + apply orb_prop in H as [H | H];
        now apply (contains_not_blank _ _ _ H).
  - destruct (contains (u "日付") line && contains (u "勤務時間") line);
      [reflexivity |].
    destruct H as [H | H]; [discriminate |]. now rewrite H.
Qed.

Lemma emitted_In (cy cm : Z) (lines : list str) (outcomes : list outcome)
      (r : shift) :
  Forall2 (fun line o => loop_body cy cm line = Ok o) lines outcomes ->
  In r (emitted outcomes) ->
  exists line, In line lines /\ loop_body cy cm line = Ok (Emit r).
Proof.
  induction 1 as [| line o lines outcomes Ho _ IH]; simpl; [contradiction |].
  intros H. apply in_app_or in H as [H | H].
  - destruct o as [why | r']; simpl in H; [contradiction |].
    destruct H as [-> | []]. eauto.
  - destruct (IH H) as (l & Hl & E). eauto.
Qed.

(** C8. The year of a parsed month is the current year, plus one when the
    month is more than six months before the current month, minus one when
    it is more than six months after it; every record the parser returns
    carries the year resolved this way. *)
Theorem year_of_parsed_month
        (now_year now_month : datetime.t) (text : str)
        (shifts : list shift) (r : shift) :
  parse_shift_text now_year now_month text = Ok shifts ->
  In r shifts ->
  let cy := datetime.year now_year in
  let cm := datetime.month now_month in
  let month := date.month (shift_date r) in
  let year := date.year (shift_date r) in
  (month < cm - 6 -> year = cy + 1)
  /\ (month > cm + 6 -> year = cy - 1)
  /\ (cm - 6 <= month <= cm + 6 -> year = cy).
Proof.
  intros Hparse Hr cy cm month year.
  destruct (for_lines_spec (datetime.year now_year) (datetime.month now_month)
                           (split NEWLINE (strip text)) [])
    as (outcomes & F & E).
  unfold parse_shift_text in Hparse. rewrite Hparse in E.
  injection E as ->. simpl in Hr.
  destruct (emitted_In _ _ _ _ _ F Hr) as (line & _ & Hline).
  apply loop_body_emit
    in Hline as (dg & g1 & g2 & m & d & tg & _ & _ & _ & _ & _ & En & _).
  destruct (date_new_cases (resolve_year (datetime.year now_year)
                                         (datetime.month now_month) m) m d)
    as [Hn | Hn]; rewrite Hn in En; [discriminate |].
  injection En as En.
  subst month year. rewrite <- En. cbn [date.month date.year].
  fold cy cm. unfold resolve_year.
  destruct (m <? cm - 6) eqn:E1; [apply Z.ltb_lt in E1 | apply Z.ltb_ge in E1].
  - repeat split; lia.
  - destruct (m >? cm + 6) eqn:E2; rewrite Z.gtb_ltb in E2;
      [apply Z.ltb_lt in E2 | apply Z.ltb_ge in E2]; repeat split; lia.
Qed.

(** *** Records of the parser are inputs of the calculator *)

(** A decimal character stands for one of the ten digits. *)
Hypothesis nonascii_decimal_digit :
  forall c d, nonascii_decimal c = Some d -> 0 <= d <= 9.

Lemma decimal_digit (c : char) (d : Z) : decimal c = Some d -> 0 <= d <= 9.
Proof.
  unfold decimal. destruct (c <? 0x80)%N; [| apply nonascii_decimal_digit].
  destruct (_ && _) eqn:E; [| discriminate].
  apply andb_prop in E as [E1 E2].
  apply N.leb_le in E1. apply N.leb_le in E2.
  intros H. injection H as <-. lia.
Qed.

Lemma int_two_digits (g : str) (z : Z) :
  digit_string 2 g -> int g = Ok z -> 0 <= z <= 99.
Proof.
  intros [_ Hlen].
  destruct g as [| a [| b [| c g]]]; simpl in Hlen; try lia; simpl.
  - destruct (decimal a) as [x |] eqn:Ea; [| discriminate].
    apply decimal_digit in Ea. intros H. injection H as <-. lia.
  - destruct (decimal a) as [x |] eqn:Ea; [| discriminate].
    destruct (decimal b) as [y |] eqn:Eb; [| discriminate].
    apply decimal_digit in Ea. apply decimal_digit in Eb.
    intros H. injection H as <-. lia.
Qed.

Lemma format_check_all : forallb format_check (zrange 0 99) = true.
Proof. vm_compute. reflexivity. Qed.

Lemma format_02d_spec (h : Z) :
  0 <= h <= 99 ->
  digit_string 2 (format_02d h) /\ int (format_02d h) = Ok h.
Proof.
  intros Hh. pose proof format_check_all as H.
  rewrite forallb_forall in H. specialize (H h (zrange_In _ _ _ Hh)).
  unfold format_check in H.
  apply andb_prop in H as [H H3]. apply andb_prop in H as [H1 H2].
  apply Nat.eqb_eq in H2. unfold digit_string. rewrite H1, H2.
  split; [split; [reflexivity | lia] |].
  destruct (int (format_02d h)) as [z |]; [| discriminate].
  apply Z.eqb_eq in H3. now subst.
Qed.

Lemma parse_time_clock (h : Z) (m : str) (mv : Z) :
  0 <= h <= 99 -> digit_string 2 m -> int m = Ok mv ->
  parse_time (format_02d h ++ u ":" ++ m) = Ok (h, mv).
Proof.
  intros Hh Hm Hmv. destruct (format_02d_spec h Hh) as [Hd Hi].
  unfold parse_time.
  change (format_02d h ++ u ":" ++ m) with (format_02d h ++ chr ":" :: m).
  rewrite (split_clock 2) by assumption.
  cbn [index nth_error bind]. rewrite Hi. cbn [bind]. rewrite Hmv.
  reflexivity.
Qed.

(** The times of a record are what [parse_time] reads back, with both
    fields of at most two digits. *)
Lemma loop_body_emit_times (cy cm : Z) (line : str) (r : shift) :
  loop_body cy cm line = Ok (Emit r) ->
  exists sh sm eh em,
    parse_time (shift_start r) = Ok (sh, sm)
    /\ parse_time (shift_end r) = Ok (eh, em)
    /\ 0 <= sh <= 99 /\ 0 <= sm <= 99 /\ 0 <= eh <= 99 /\ 0 <= em <= 99.
Proof.
  unfold loop_body. intros H.
  destruct (strip line); [discriminate |].
  destruct (_ && _); [discriminate |].
  destruct (_ || _); [discriminate |].
  destruct (search date_pattern line) as [dg |]; [| discriminate].
  do 4 step_bind H.
  destruct (date.new _ _ _) as [work_date | ex] eqn:En;
    [| destruct ex; discriminate].
  destruct (search time_pattern line) as [tg |] eqn:Et; [| discriminate].
  apply search_some in Et as (s2 & t2 & r2 & Et).
  apply time_match_groups
    in Et as (h1 & m1 & h2 & m2 & -> & Hh1 & Hm1 & Hh2 & Hm2).
  cbn [group index nth_error bind] in H.
  rewrite (split_clock 2 h1 m1), (split_clock 2 h2 m2) in H by assumption.
  cbn [index nth_error bind] in H.
  destruct (int h1) as [sh |] eqn:Esh; [| discriminate].
  cbn [bind] in H.
  destruct (int h2) as [eh |] eqn:Eeh; [| discriminate].
  cbn [bind] in H. injection H as <-. cbn [shift_start shift_end].
  destruct (int_digit_string _ _ Hm1) as [sm Esm].
  destruct (int_digit_string _ _ Hm2) as [em Eem].
  pose proof (int_two_digits _ _ Hh1 Esh).
  pose proof (int_two_digits _ _ Hm1 Esm).
  pose proof (int_two_digits _ _ Hh2 Eeh).
  pose proof (int_two_digits _ _ Hm2 Eem).
  exists sh, sm, eh, em.
  split; [exact (parse_time_clock sh m1 sm ltac:(assumption) Hm1 Esm) |].
  split; [exact (parse_time_clock eh m2 em ltac:(assumption) Hm2 Eem) |].
  auto.
Qed.

(** Every record [parse_shift_text] returns is one the calculator accepts:
    its times read back as hours and minutes of at most two digits, and
    [calculate_daily_wage] returns a result for it. *)
Lemma parsed_records_are_calculable
      (now_year now_month : datetime.t) (text : str)
      (shifts : list shift) (r : shift) :
  parse_shift_text now_year now_month text = Ok shifts ->
  In r shifts ->
  exists sh sm eh em res,
    parse_time (shift_start r) = Ok (sh, sm)
    /\ parse_time (shift_end r) = Ok (eh, em)
    /\ 0 <= sh <= 99 /\ 0 <= sm <= 99 /\ 0 <= eh <= 99 /\ 0 <= em <= 99
    /\ calculate_daily_wage (shift_date r) (shift_start r) (shift_end r)
       = Ok res.
Proof.
  intros Hparse Hr.
  destruct (for_lines_spec (datetime.year now_year) (datetime.month now_month)
                           (split NEWLINE (strip text)) [])
    as (outcomes & F & E).
  unfold parse_shift_text in Hparse. rewrite Hparse in E.
  injection E as ->. simpl in Hr.
  destruct (emitted_In _ _ _ _ _ F Hr) as (line & _ & Hline).
  destruct (loop_body_emit_times _ _ _ _ Hline)
    as (sh & sm & eh & em & Hs & He & Hsh & Hsm & Heh & Hem).
  assert (exists res,
             calculate_daily_wage (shift_date r) (shift_start r) (shift_end r)
             = Ok res) as (res & Hres).
  { destruct (is_holiday_or_weekend (shift_date r)) eqn:Hd.
    - destruct (special_spec _ _ _ _ _ _ _ Hs He Hd) as (f & E & _);
        [unfold time_to_minutes; lia | eauto].
    - destruct (weekday_spec _ _ _ _ _ _ _ Hs He Hd) as (w & segs & E & _).
      eauto. }
  exists sh, sm, eh, em, res. auto 10.
Qed.

(** *** More on the calculator *)

(** X1. The overlap of two intervals does not depend on their order, is
    never negative, and is additive in the second interval: cutting
    [a, b] at a point p in between cuts the overlap in two. *)
Theorem calculate_overlap_splits (s e a p b : Z) :
  a <= p <= b ->
  calculate_overlap s e a b
  = calculate_overlap s e a p + calculate_overlap s e p b
  /\ calculate_overlap s e a b = calculate_overlap a b s e
  /\ 0 <= calculate_overlap s e a b <= b - a.
Proof. unfold calculate_overlap. lia. Qed.

(** X2. On a day that is neither weekend nor holiday the durations of the
    segments add up to the part of the shift that lies between 00:00 and
    24:00, whatever the two times are: minutes written past 24:00 count in
    total_minutes but are in no segment. *)
Theorem weekday_pays_within_the_day
        (d : date.t) (s e : str) (sh sm eh em : Z) :
  parse_time s = Ok (sh, sm) ->
  parse_time e = Ok (eh, em) ->
  is_holiday_or_weekend d = false ->
  exists r,
    calculate_daily_wage d s e = Ok r
    /\ res_total_minutes r = time_to_minutes eh em - time_to_minutes sh sm
    /\ sum_minutes (res_breakdown r)
       = calculate_overlap (time_to_minutes sh sm) (time_to_minutes eh em)
                           0 (time_to_minutes 24 0)
    /\ (List.length (res_breakdown r) <= 3)%nat.
Proof.
  intros Hs He Hd.
  destruct (weekday_spec d s e sh sm eh em Hs He Hd)
    as (w & segs & E & _ & F & _).
  eexists. split; [exact E |]. cbn [res_total_minutes res_breakdown].
  split; [reflexivity |].
  set (start := time_to_minutes sh sm) in *.
  set (end_ := time_to_minutes eh em) in *.
  cbn [spec_intersections spec_bands map filter positive_overlap] in F.
  destruct (0 <? spec_overlap start end_ 0 (13 * 60)) eqn:E1,
           (0 <? spec_overlap start end_ (13 * 60) (17 * 60)) eqn:E2,
           (0 <? spec_overlap start end_ (17 * 60) (24 * 60)) eqn:E3;
    invert_segments;
    rewrite ?Z.ltb_lt, ?Z.ltb_ge in *;
    (split;
     [ unfold sum_minutes; cbn [map fold_right seg_minutes];
       unfold spec_overlap, calculate_overlap, time_to_minutes in *; lia
     | cbn [List.length]; lia ]).
Qed.

(** X3. A weekday shift that starts at 24:00 or later (the parser accepts
    hours up to 99) gets an empty breakdown and the integer wage 0, while
    its total_minutes is that of the times as written. *)
Theorem weekday_after_midnight_unpaid
        (d : date.t) (s e : str) (sh sm eh em : Z) :
  parse_time s = Ok (sh, sm) ->
  parse_time e = Ok (eh, em) ->
  is_holiday_or_weekend d = false ->
  time_to_minutes 24 0 <= time_to_minutes sh sm ->
  calculate_daily_wage d s e =
  Ok {| res_date := d; res_start := s; res_end := e;
        res_total_minutes := time_to_minutes eh em - time_to_minutes sh sm;
        res_wage := PInt 0; res_breakdown := [] |}.
Proof.
  intros Hs He Hd Hlate.
  destruct (weekday_spec d s e sh sm eh em Hs He Hd)
    as (w & segs & E & _ & F & S & _).
  set (start := time_to_minutes sh sm) in *.
  set (end_ := time_to_minutes eh em) in *.
  cbn [spec_intersections spec_bands map filter positive_overlap] in F.
  replace (0 <? spec_overlap start end_ 0 (13 * 60)) with false in F
    by (symmetry; apply Z.ltb_ge;
        unfold spec_overlap, time_to_minutes in *; lia).
  replace (0 <? spec_overlap start end_ (13 * 60) (17 * 60)) with false in F
    by (symmetry; apply Z.ltb_ge;
        unfold spec_overlap, time_to_minutes in *; lia).
  replace (0 <? spec_overlap start end_ (17 * 60) (24 * 60)) with false in F
    by (symmetry; apply Z.ltb_ge;
        unfold spec_overlap, time_to_minutes in *; lia).
  inversion F; subst. cbn in S. injection S as <-. exact E.
Qed.

Lemma pay_of_overlap (label : str) (band_start band_end rate s e : Z) :
  In (label, band_start, band_end, rate) spec_bands ->
  0 < spec_overlap s e band_start band_end ->
  exists f,
    hourly_pay (spec_overlap s e band_start band_end) rate = Ok (PFloat f)
    /\ fadd (S754_zero false) f = f.
Proof.
  intros Hin Hpos.
  destruct (pay_check_elim rate (spec_overlap s e band_start band_end))
    as (f & Hf & H0 & _); eauto.
  exact (overlap_pay_check label band_start band_end rate s e Hin Hpos).
Qed.

(** X4. A weekday shift that lies within one band has exactly one segment:
    that band's label and rate, the whole duration, and the wage of the day
    is the amount of that segment. *)
Theorem weekday_shift_within_one_band
        (d : date.t) (s e : str) (sh sm eh em : Z)
        (label : str) (band_start band_end rate : Z) :
  parse_time s = Ok (sh, sm) ->
  parse_time e = Ok (eh, em) ->
  is_holiday_or_weekend d = false ->
  In (label, band_start, band_end, rate) spec_bands ->
  band_start <= time_to_minutes sh sm ->
  time_to_minutes sh sm < time_to_minutes eh em ->
  time_to_minutes eh em <= band_end ->
  exists amount,
    hourly_pay (time_to_minutes eh em - time_to_minutes sh sm) rate
    = Ok amount
    /\ calculate_daily_wage d s e =
       Ok {| res_date := d; res_start := s; res_end := e;
             res_total_minutes :=
               time_to_minutes eh em - time_to_minutes sh sm;
             res_wage := amount;
             res_breakdown :=
               [{| seg_type := label;
                   seg_minutes :=
                     time_to_minutes eh em - time_to_minutes sh sm;
                   seg_rate := rate; seg_amount := amount |}] |}.
Proof.
  intros Hs He Hd Hin Hlo Hlt Hhi.
  destruct (weekday_spec d s e sh sm eh em Hs He Hd)
    as (w & segs & E & _ & F & S & _).
  set (start := time_to_minutes sh sm) in *.
  set (end_ := time_to_minutes eh em) in *.
  assert (Hdur : spec_overlap start end_ band_start band_end = end_ - start).
  { unfold spec_overlap. lia. }
  destruct (pay_of_overlap label band_start band_end rate start end_ Hin)
    as (f & Hf & H0); [lia |].
  rewrite Hdur in Hf. exists (PFloat f). split; [exact Hf |].
  rewrite E. clear E.
  cbn [spec_intersections spec_bands map filter positive_overlap] in F.
  simpl in Hin.
  destruct Hin as [Hin | [Hin | [Hin | []]]];
    injection Hin as <- <- <- <-;
    match type of F with
    | Forall2 _ _ (if ?a then _ else _) =>
      let Ea := fresh "Ea" in
      destruct a eqn:Ea;
      [apply Z.ltb_lt in Ea | apply Z.ltb_ge in Ea];
      unfold spec_overlap in Ea; try lia
    end;
    repeat match type of F with
           | context [if ?a then _ else _] =>
             let Ea := fresh "Ea" in
             destruct a eqn:Ea;
             [apply Z.ltb_lt in Ea | apply Z.ltb_ge in Ea];
             unfold spec_overlap in Ea; try lia
           end;
    invert_segments;
    match goal with
    | Hp : hourly_pay _ _ = Ok (seg_amount ?x), Hm : seg_minutes ?x = _ |- _ =>
      rewrite Hdur in Hp, Hm; rewrite Hf in Hp; injection Hp as Hp;
      cbn [map] in S; rewrite <- Hp in S;
      rewrite (add_to_zero f H0) in S; injection S as <-;
      destruct x; cbn in *; subst; reflexivity
    end.
Qed.

Lemma quarter_exact_check :
  forallb (fun rate =>
             forallb (fun k => exact_check rate (15 * k)) (zrange (-402) 402))
          [1140; 1190; 1290] = true.
Proof. vm_compute. reflexivity. Qed.

Lemma quarter_exact (rate k : Z) :
  In rate [1140; 1190; 1290] -> -402 <= k <= 402 ->
  exact_check rate (15 * k) = true.
Proof.
  intros Hr Hk. pose proof quarter_exact_check as H.
  rewrite forallb_forall in H. specialize (H rate Hr). cbv beta in H.
  rewrite forallb_forall in H. exact (H k (zrange_In _ _ _ Hk)).
Qed.

Lemma exact_segment (seg : segment) (label : str) (duration rate : Z) :
  segment_of seg (label, duration, rate) ->
  exact_check rate duration = true ->
  exact_amount seg = true.
Proof.
  intros (_ & Hm & Hr & Hp). unfold exact_check, exact_amount.
  rewrite Hp, Hm, Hr. destruct (seg_amount seg); [discriminate | auto].
Qed.

Lemma exact_segments (segs : list segment) (bs : list (str * Z * Z)) :
  Forall2 segment_of segs bs ->
  (forall label duration rate,
      In (label, duration, rate) bs -> exact_check rate duration = true) ->
  Forall (fun seg => exact_amount seg = true) segs.
Proof.
  induction 1 as [| seg [[label duration] rate] segs bs Hseg _ IH];
    intros Hall; constructor.
  - apply (exact_segment seg label duration rate Hseg).
    apply (Hall label). now left.
  - apply IH. intros l du r Hin. apply (Hall l). now right.
Qed.

(** X5. When the start and the end of a shift fall on quarter hours, the
    amount of every segment is exactly (duration / 60) × rate: the binary64
    arithmetic loses nothing on such shifts. *)
Theorem quarter_hour_amounts_are_exact
        (d : date.t) (s e : str) (sh sm eh em : Z) :
  parse_time s = Ok (sh, sm) ->
  parse_time e = Ok (eh, em) ->
  0 <= sh <= 99 -> 0 <= sm <= 99 -> 0 <= eh <= 99 -> 0 <= em <= 99 ->
  sm mod 15 = 0 -> em mod 15 = 0 ->
  exists r,
    calculate_daily_wage d s e = Ok r
    /\ Forall (fun seg => exact_amount seg = true) (res_breakdown r).
Proof.
  intros Hs He Hsh Hsm Heh Hem Qs Qe.
  apply Z.mod_divide in Qs; [| lia]. apply Z.mod_divide in Qe; [| lia].
  destruct Qs as [a Qs], Qe as [b Qe].
  set (p := 4 * sh + a). set (q := 4 * eh + b).
  assert (Hp : time_to_minutes sh sm = 15 * p)
    by (unfold time_to_minutes, p; lia).
  assert (Hq : time_to_minutes eh em = 15 * q)
    by (unfold time_to_minutes, q; lia).
  assert (Hpq : 0 <= p <= 402 /\ 0 <= q <= 402) by (unfold p, q; lia).
  clearbody p q.
  destruct (is_holiday_or_weekend d) eqn:Hd.
  - destruct (special_spec d s e sh sm eh em Hs He Hd)
      as (f & E & Hpay & _).
    { unfold time_to_minutes. lia. }
    eexists. split; [exact E |]. cbn [res_breakdown].
    constructor; [| constructor].
    apply exact_segment with (label := u "土日祝")
                             (duration := time_to_minutes eh em
                                          - time_to_minutes sh sm)
                             (rate := WEEKEND_WAGE).
    + repeat split. exact Hpay.
    + replace (time_to_minutes eh em - time_to_minutes sh sm)
        with (15 * (q - p)) by lia.
      apply quarter_exact; [simpl; auto | lia].
  - destruct (weekday_spec d s e sh sm eh em Hs He Hd)
      as (w & segs & E & _ & F & _).
    eexists. split; [exact E |]. cbn [res_breakdown].
    apply (exact_segments _ _ F).
    intros label duration rate Hin.
    apply filter_In in Hin as [Hin _].
    rewrite Hp, Hq in Hin.
    remember (15 * p) as P eqn:EP. remember (15 * q) as Q eqn:EQ.
    simpl in Hin.
    destruct Hin as [Hin | [Hin | [Hin | []]]];
      injection Hin as <- <- <-.
    + replace (spec_overlap P Q 0 780)
        with (15 * Z.max 0 (Z.min q 52 - Z.max p 0))
        by (unfold spec_overlap; lia).
      apply quarter_exact; [simpl; auto | lia].
    + replace (spec_overlap P Q 780 1020)
        with (15 * Z.max 0 (Z.min q 68 - Z.max p 52))
        by (unfold spec_overlap; lia).
      apply quarter_exact; [simpl; auto | lia].
    + replace (spec_overlap P Q 1020 1440)
        with (15 * Z.max 0 (Z.min q 96 - Z.max p 68))
        by (unfold spec_overlap; lia).
      apply quarter_exact; [simpl; auto | lia].
Qed.

(** X6. [parse_time] reads the first two colon-separated fields and
    ignores whatever follows a second colon: 09:30:45 reads as 09:30. *)
Theorem parse_time_ignores_further_fields (h m rest : str) :
  no_colon h = true -> no_colon m = true ->
  parse_time (h ++ u ":" ++ m ++ u ":" ++ rest)
  = parse_time (h ++ u ":" ++ m).
Proof.
  unfold no_colon, parse_time. intros Hh Hm.
  change (h ++ u ":" ++ m ++ u ":" ++ rest)
    with (h ++ chr ":" :: (m ++ chr ":" :: rest)).
  change (h ++ u ":" ++ m) with (h ++ chr ":" :: m).
  rewrite !(split_app_sep _ h) by exact Hh.
  rewrite (split_app_sep _ m) by exact Hm.
  rewrite (split_no_sep _ m) by exact Hm.
  reflexivity.
Qed.

(** X7. A start time without a colon is never accepted: the calculator
    raises [ValueError] (from [int]) or [IndexError] (no minutes field), and
    returns no result, whatever the date and the end time are. *)
Theorem start_without_colon_raises (d : date.t) (s e : str) :
  no_colon s = true ->
  exists ex,
    calculate_daily_wage d s e = Raise ex
    /\ (ex = ValueError \/ ex = IndexError).
Proof.
  unfold no_colon, calculate_daily_wage, parse_time. intros Hs.
  rewrite (split_no_sep _ s) by exact Hs.
  cbn [index nth_error bind].
  destruct (int s) as [z | ex] eqn:E; cbn [bind]; [eauto |].
  exists ex. split; [reflexivity |]. left.
  unfold int in E. destruct s; [congruence |].
  destruct (digits_value 0 _); congruence.
Qed.

(** *** More on the parser *)

Lemma parsed_from_line
      (now_year now_month : datetime.t) (text : str)
      (shifts : list shift) (r : shift) :
  parse_shift_text now_year now_month text = Ok shifts ->
  In r shifts ->
  exists line,
    In line (split NEWLINE (strip text))
    /\ loop_body (datetime.year now_year) (datetime.month now_month) line
       = Ok (Emit r).
Proof.
  intros Hparse Hr.
  destruct (for_lines_spec (datetime.year now_year) (datetime.month now_month)
                           (split NEWLINE (strip text)) [])
    as (outcomes & F & E).
  unfold parse_shift_text in Hparse. rewrite Hparse in E.
  injection E as ->. simpl in Hr.
  exact (emitted_In _ _ _ _ _ F Hr).
Qed.

Lemma date_new_ok (y m d : Z) (x : date.t) :
  date.new y m d = Ok x ->
  x = date.make y m d
  /\ 1 <= y <= 9999 /\ 1 <= m <= 12 /\ 1 <= d <= date.days_in_month y m.
Proof.
  unfold date.new, date.MINYEAR, date.MAXYEAR.
  destruct ((1 <=? y) && (y <=? 9999)) eqn:Ey; [| discriminate].
  destruct ((1 <=? m) && (m <=? 12)) eqn:Em; [| discriminate].
  destruct ((1 <=? d) && (d <=? date.days_in_month y m)) eqn:Ed;
    [| discriminate].
  cbn [negb]. intros H. injection H as <-.
  apply andb_prop in Ey as [? ?]. apply andb_prop in Em as [? ?].
  apply andb_prop in Ed as [? ?]. rewrite !Z.leb_le in *. auto 10.
Qed.

Lemma days_in_month_le_31 (y m : Z) : date.days_in_month y m <= 31.
Proof.
  unfold date.days_in_month. destruct (_ && _); [lia |].
  destruct (Z.to_nat m) as [| [| [| [| [| [| [| [| [| [| [| [| [| n]]]]]]]]]]]]];
    simpl; try lia.
  destruct n; simpl; lia.
Qed.

(** X8. Every record the parser returns carries a real calendar date: a
    year from 1 to 9999, a month from 1 to 12 and a day that exists in
    that month of that year. *)
Theorem parsed_dates_exist
        (now_year now_month : datetime.t) (text : str)
        (shifts : list shift) (r : shift) :
  parse_shift_text now_year now_month text = Ok shifts ->
  In r shifts ->
  let dt := shift_date r in
  1 <= date.year dt <= 9999
  /\ 1 <= date.month dt <= 12
  /\ 1 <= date.day dt <= date.days_in_month (date.year dt) (date.month dt)
  /\ date.day dt <= 31.
Proof.
  intros Hparse Hr dt.
  destruct (parsed_from_line _ _ _ _ _ Hparse Hr) as (line & _ & Hline).
  apply loop_body_emit
    in Hline as (dg & g1 & g2 & m & d & tg & _ & _ & _ & _ & _ & En & _).
  apply date_new_ok in En as (E & Hy & Hm & Hd).
  subst dt. rewrite E. cbn [date.year date.month date.day].
  pose proof (days_in_month_le_31
                (resolve_year (datetime.year now_year)
                              (datetime.month now_month) m) m).
  repeat split; lia.
Qed.

(** X9. When the clock shows a month from 1 to 12, every record the parser
    returns is dated at most six months before or after the current month:
    counted in months, its distance from the clock is between -6 and 6. *)
Theorem parsed_dates_within_six_months
        (now_year now_month : datetime.t) (text : str)
        (shifts : list shift) (r : shift) :
  1 <= datetime.month now_month <= 12 ->
  parse_shift_text now_year now_month text = Ok shifts ->
  In r shifts ->
  -6 <= 12 * (date.year (shift_date r) - datetime.year now_year)
        + (date.month (shift_date r) - datetime.month now_month) <= 6.
Proof.
  intros Hcm Hparse Hr.
  destruct (parsed_from_line _ _ _ _ _ Hparse Hr) as (line & _ & Hline).
  apply loop_body_emit
    in Hline as (dg & g1 & g2 & m & d & tg & _ & _ & _ & _ & _ & En & _).
  apply date_new_ok in En as (E & _ & Hm & _).
  rewrite E. cbn [date.year date.month]. unfold resolve_year.
  destruct (m <? datetime.month now_month - 6) eqn:E1;
    [apply Z.ltb_lt in E1; lia | apply Z.ltb_ge in E1].
  destruct (m >? datetime.month now_month + 6) eqn:E2;
    rewrite Z.gtb_ltb in E2;
    [apply Z.ltb_lt in E2 | apply Z.ltb_ge in E2]; lia.
Qed.





Lemma lstrip_all_space (s : str) :
  forallb isspace s = true -> lstrip s = [].
Proof.
  induction s as [| c s IH]; simpl; [reflexivity |].
  intros H. apply andb_prop in H as [Hc Hs]. rewrite Hc. auto.
Qed.

(** X11. A text made only of whitespace (spaces, tabs, blank lines) gives
    no records. *)
Theorem blank_text_gives_no_records
        (now_year now_month : datetime.t) (text : str) :
  forallb isspace text = true ->
  parse_shift_text now_year now_month text = Ok [].
Proof.
  intros H. unfold parse_shift_text, strip.
  rewrite (lstrip_all_space _ H). reflexivity.
Qed.

Lemma strip_trimmed (t : str) : trimmed t = true -> strip t = t.
Proof.
  unfold trimmed, strip. intros H. apply andb_prop in H as [Hh Hl].
  apply negb_true_iff in Hh. apply negb_true_iff in Hl.
  destruct t as [| c t]; [reflexivity |].
  cbn [hd] in Hh. cbn [lstrip]. rewrite Hh.
  destruct (exists_last (l := c :: t)) as (t' & z & E); [discriminate |].
  rewrite E in Hl |- *. rewrite last_last in Hl.
  rewrite rev_app_distr. cbn [rev app lstrip]. rewrite Hl.
  change (z :: rev t') with (rev [z] ++ rev t').
  rewrite <- rev_app_distr. apply rev_involutive.
Qed.

Lemma last_app_nonempty (a b : str) (d : char) :
  b <> [] -> last (a ++ b) d = last b d.
Proof.
  intros Hb. induction a as [| c a IH]; [reflexivity |].
  cbn [app]. change (last (c :: a ++ b) d)
    with (match a ++ b with [] => c | _ :: _ => last (a ++ b) d end).
  destruct (a ++ b) eqn:E; [| exact IH].
  apply app_eq_nil in E as [_ E]. contradiction.
Qed.

Lemma trimmed_join (t1 t2 : str) :
  trimmed t1 = true -> trimmed t2 = true ->
  trimmed (t1 ++ NEWLINE :: t2) = true.
Proof.
  unfold trimmed. intros H1 H2.
  apply andb_prop in H1 as [Hh1 _]. apply andb_prop in H2 as [Hh2 Hl2].
  destruct t1 as [| c t1]; [discriminate |].
  destruct t2 as [| c2 t2]; [discriminate |].
  rewrite last_app_nonempty by discriminate.
  cbn [app hd]. cbn [hd] in Hh1. rewrite Hh1. cbn [andb].
  exact Hl2.
Qed.

Lemma split_nonempty (sep : char) (s : str) : split sep s <> [].
Proof.
  destruct s as [| c s]; simpl; [discriminate |].
  destruct (c =? sep)%N; [discriminate |].
  destruct (split sep s); discriminate.
Qed.

Lemma split_join (sep : char) (a b : str) :
  split sep (a ++ sep :: b) = split sep a ++ split sep b.
Proof.
  induction a as [| c a IH]; simpl.
  - now rewrite N.eqb_refl.
  - destruct (c =? sep)%N; rewrite IH; [reflexivity |].
    pose proof (split_nonempty sep a).
    destruct (split sep a); [contradiction | reflexivity].
Qed.

Lemma for_lines_acc (cy cm : Z) (lines : list str) :
  forall acc,
    for_lines cy cm lines acc
    = (r <- for_lines cy cm lines [] ;; Ok (acc ++ r)).
Proof.
  induction lines as [| line lines IH]; intros acc; simpl.
  - now rewrite app_nil_r.
  - destruct (loop_body cy cm line) as [o |]; cbn [bind]; [| reflexivity].
    destruct o as [why | r]; [apply IH |].
    rewrite IH, (IH [r]).
    destruct (for_lines cy cm lines []) as [rs |]; cbn [bind]; [| reflexivity].
    now rewrite <- app_assoc.
Qed.

Lemma for_lines_app (cy cm : Z) (l1 l2 : list str) :
  forall acc,
    for_lines cy cm (l1 ++ l2) acc
    = (acc' <- for_lines cy cm l1 acc ;; for_lines cy cm l2 acc').
Proof.
  induction l1 as [| line l1 IH]; intros acc; simpl; [reflexivity |].
  destruct (loop_body cy cm line); cbn [bind]; auto.
Qed.

(** X12. Lines are parsed independently of one another: for two texts that
    do not start or end with whitespace, parsing them joined by a newline
    gives the records of the first followed by the records of the second
    (the clock being the same). *)
Theorem parse_of_joined_texts
        (now_year now_month : datetime.t) (t1 t2 : str) :
  trimmed t1 = true -> trimmed t2 = true ->
  exists r1 r2,
    parse_shift_text now_year now_month t1 = Ok r1
    /\ parse_shift_text now_year now_month t2 = Ok r2
    /\ parse_shift_text now_year now_month (t1 ++ [NEWLINE] ++ t2)
       = Ok (r1 ++ r2).
Proof.
  intros H1 H2. unfold parse_shift_text.
  change (t1 ++ [NEWLINE] ++ t2) with (t1 ++ NEWLINE :: t2).
  rewrite (strip_trimmed _ (trimmed_join _ _ H1 H2)).
  rewrite (strip_trimmed _ H1), (strip_trimmed _ H2).
  rewrite split_join, for_lines_app.
  set (cy := datetime.year now_year). set (cm := datetime.month now_month).
  destruct (for_lines_spec cy cm (split NEWLINE t1) []) as (o1 & _ & E1).
  destruct (for_lines_spec cy cm (split NEWLINE t2) []) as (o2 & _ & E2).
  change ([] ++ emitted o1) with (emitted o1) in E1.
  change ([] ++ emitted o2) with (emitted o2) in E2.
  exists (emitted o1), (emitted o2).
  split; [exact E1 |]. split; [exact E2 |].
  rewrite E1. cbn [bind]. rewrite for_lines_acc, E2. reflexivity.
Qed.

(** *** The totals of [main] *)

Lemma for_shifts_spec (shifts : list shift) :
  forall results tw tm results' tw' tm',
    for_shifts shifts results tw tm = Ok (results', tw', tm') ->
    exists new,
      results' = results ++ new
      /\ Forall2 result_of shifts new
      /\ tm' = tm + sum_total_minutes new
      /\ sum_from tw (map res_wage new) = Ok tw'.
Proof.
  induction shifts as [| sh shifts IH]; intros results tw tm results' tw' tm' H;
    cbn [for_shifts] in H.
  - injection H as <- <- <-. exists []. rewrite app_nil_r.
    unfold sum_total_minutes. simpl. repeat split; [constructor | lia].
  - destruct (calculate_daily_wage _ _ _) as [r |] eqn:Er; [| discriminate].
    cbn [bind] in H.
    destruct (num_add tw (res_wage r)) as [tw1 |] eqn:Ea; [| discriminate].
    cbn [bind] in H.
    apply IH in H as (new & -> & F & -> & S).
    exists (r :: new). rewrite <- app_assoc.
    unfold sum_total_minutes. cbn [map fold_right sum_from app].
    rewrite Ea. cbn [bind].
    repeat split; auto; try (constructor; assumption); lia.
Qed.

(** X14. When [main] gets as far as the totals, there is one result per
    parsed record, in the order of the records; the number of days shown is
    the number of parsed lines (two lines for the same date count twice);
    total_minutes is the sum of the results' total_minutes, and the total
    wage is their wages added from 0 in order. *)
Theorem main_totals
        (now_year now_month : datetime.t) (shift_text : str)
        (results : list daily) (total_wage : pynum) (total_minutes : Z) :
  main_calculation now_year now_month shift_text
  = Ok (Totals results total_wage total_minutes) ->
  exists shifts,
    parse_shift_text now_year now_month shift_text = Ok shifts
    /\ shifts <> []
    /\ Forall2 result_of shifts results
    /\ List.length results = List.length shifts
    /\ total_minutes = sum_total_minutes results
    /\ py_sum (map res_wage results) = Ok total_wage.
Proof.
  unfold main_calculation. intros H.
  destruct (strip shift_text); [discriminate |].
  destruct (parse_shift_text now_year now_month shift_text)
    as [shifts |]; [| discriminate].
  cbn [bind] in H. destruct shifts as [| sh shifts]; [discriminate |].
  cbv zeta in H.
  destruct (for_shifts (sh :: shifts) [] (PInt 0) 0)
    as [[[rs tw] tm] |] eqn:E; [| discriminate].
  cbn [bind] in H. injection H as <- <- <-.
  apply for_shifts_spec in E as (new & -> & F & -> & S).
  exists (sh :: shifts). cbn [app].
  repeat split; auto; [discriminate |].
  symmetry. apply (Forall2_length F).
Qed.





(** *** Formatting *)

(** X16. The two-digit rendering the parser gives to a time and the
    reading [parse_time] makes of it are inverse to one another, for hours
    and minutes from 0 to 99. *)
Theorem parse_time_of_formatted (h m : Z) :
  0 <= h <= 99 -> 0 <= m <= 99 ->
  parse_time (format_02d h ++ u ":" ++ format_02d m) = Ok (h, m).
Proof.
  intros Hh Hm. destruct (format_02d_spec m Hm) as [Hd Hi].
  now apply parse_time_clock.
Qed.

Lemma to_int_not_nil (z : Z) :
  Z.to_int z <> Decimal.Pos Decimal.Nil
  /\ Z.to_int z <> Decimal.Neg Decimal.Nil.
Proof.
  split; intros H; pose proof (DecimalZ.of_to z) as E; rewrite H in E;
    cbn in E; subst z; discriminate.
Qed.

Lemma N_of_ascii_inj (a b : ascii) : N_of_ascii a = N_of_ascii b -> a = b.
Proof.
  intros H. rewrite <- (ascii_N_embedding a), <- (ascii_N_embedding b).
  now rewrite H.
Qed.

Lemma map_N_of_ascii_inj (x y : list ascii) :
  map N_of_ascii x = map N_of_ascii y -> x = y.
Proof.
  revert y. induction x as [| a x IH]; intros [| b y] H;
    try discriminate; [reflexivity |].
  injection H as Ha Hx. apply N_of_ascii_inj in Ha. f_equal; auto.
Qed.

Lemma str_of_int_inj (a b : Z) : str_of_int a = str_of_int b -> a = b.
Proof.
  unfold str_of_int. intros H. apply map_N_of_ascii_inj in H.
  apply (f_equal string_of_list_ascii) in H.
  rewrite !string_of_list_ascii_of_string in H.
  apply (f_equal NilZero.int_of_string) in H.
  destruct (to_int_not_nil a), (to_int_not_nil b).
  rewrite !NilZero.isi in H by assumption.
  injection H as H. now apply DecimalZ.to_int_inj.
Qed.

Lemma str_of_int_narrow (z : Z) :
  Forall (fun c => (c < 256)%N) (str_of_int z).
Proof.
  unfold str_of_int. apply Forall_forall. intros c Hc.
  apply in_map_iff in Hc as (a & <- & _). apply N_ascii_bounded.
Qed.

Lemma cut_at_wide (c : char) (x1 x2 y1 y2 : str) :
  (256 <= c)%N ->
  Forall (fun a => (a < 256)%N) x1 ->
  Forall (fun a => (a < 256)%N) x2 ->
  x1 ++ c :: y1 = x2 ++ c :: y2 -> x1 = x2 /\ y1 = y2.
Proof.
  intros Hc H1. revert x2.
  induction H1 as [| a x1 Ha _ IH]; intros x2 H2 E; inversion H2; subst;
    cbn [app] in E.
  - injection E as E. auto.
  - injection E as E _. lia.
  - injection E as E _. lia.
  - injection E as -> E. destruct (IH _ H0 E) as [-> ->]. auto.
Qed.

(** X15. Two different numbers of minutes are never shown as the same
    text. *)
Theorem format_minutes_injective (a b : Z) :
  format_minutes a = format_minutes b -> a = b.
Proof.
  unfold format_minutes.
  pose proof (Z.div_mod a 60 ltac:(lia)) as Da.
  pose proof (Z.div_mod b 60 ltac:(lia)) as Db.
  change (u "時間") with [0x6642%N; 0x9593%N].
  change (u "分") with [0x5206%N].
  destruct (a mod 60 =? 0) eqn:Ea, (b mod 60 =? 0) eqn:Eb;
    rewrite ?Z.eqb_eq, ?Z.eqb_neq in *; intros H;
    apply cut_at_wide in H as [Hh Ht];
      try apply str_of_int_narrow; try (cbv; discriminate).
  - apply str_of_int_inj in Hh. lia.
  - exfalso. injection Ht as Ht. symmetry in Ht.
    apply app_eq_nil in Ht as [_ Ht]. discriminate.
  - exfalso. injection Ht as Ht.
    apply app_eq_nil in Ht as [_ Ht]. discriminate.
  - apply str_of_int_inj in Hh. injection Ht as Ht.
    apply app_inv_tail in Ht. apply str_of_int_inj in Ht. lia.
Qed.

End App.

(** ** What parsing and calculation depend on *)

(** C9, as the code has it.  The calculator is a function of the shift
    record and of the special-day answer for its date.  The parser is a
    function of the text together with the year and the month the clock
    shows when it is called: two runs on the same text return the same
    records when those two readings agree. *)
Theorem parse_and_calculate_inputs
        (nonascii_decimal : char -> option Z)
        (calendar calendar' : date.t -> bool)
        (now_year now_month now_year' now_month' : datetime.t)
        (text : str) (d : date.t) (s e : str) :
  datetime.year now_year = datetime.year now_year' ->
  datetime.month now_month = datetime.month now_month' ->
  is_holiday_or_weekend calendar d = is_holiday_or_weekend calendar' d ->
  parse_shift_text nonascii_decimal now_year now_month text
  = parse_shift_text nonascii_decimal now_year' now_month' text
  /\ calculate_daily_wage nonascii_decimal calendar d s e
     = calculate_daily_wage nonascii_decimal calendar' d s e.
Proof.
  intros Hy Hm Hd. split.
  - unfold parse_shift_text. now rewrite Hy, Hm.
  - unfold calculate_daily_wage.
    destruct (parse_time nonascii_decimal s) as [[sh sm] | ]; [| reflexivity].
    destruct (parse_time nonascii_decimal e) as [[eh em] | ]; [| reflexivity].
    cbn [bind]. now rewrite Hd.
Qed.

(** ** Where the wording of the specification goes beyond the program *)

(** C3 as worded: every amount is exactly (duration / 60) × rate.  Eleven
    minutes before 13:00 on a weekday are paid 208.99999999999997, not
    209. *)
Lemma eleven_minutes_not_exact :
  ~ exists r,
      calculate_daily_wage ascii_only no_holidays thursday
                           (u "12:49") (u "13:00") = Ok r
      /\ Forall (fun seg => exact_amount seg = true) (res_breakdown r).
Proof.
  intros (r & E & F). vm_compute in E. injection E as <-.
  inversion F as [| seg l H _]; subst. vm_compute in H. discriminate.
Qed.

(** C9 as worded: two runs of the parser on the same text give the same
    records.  Read in May 2025 the sample line is dated 2024; read in
    December 2025 it is dated 2025. *)
Lemma parse_depends_on_clock :
  parse_shift_text ascii_only (clock 2025 5 1) (clock 2025 5 1) sample_line
  <> parse_shift_text ascii_only (clock 2025 12 1) (clock 2025 12 1)
                      sample_line.
Proof. vm_compute. discriminate. Qed.

(** C10 as worded: on a weekday with end <= start the durations do not add
    up to total_minutes.  From 09:00 to 09:00 both are 0. *)
Lemma equal_times_durations_agree :
  ~ forall r,
      calculate_daily_wage ascii_only no_holidays thursday
                           (u "09:00") (u "09:00") = Ok r ->
      sum_minutes (res_breakdown r) <> res_total_minutes r.
Proof.
  intros H. eapply H; vm_compute; reflexivity.
Qed.

(** ** The theorems at work on the sample inputs *)

Lemma weekday_segments_sample :
  exists r,
    calculate_daily_wage ascii_only no_holidays thursday
                         (u "10:00") (u "18:00") = Ok r
    /\ Forall2 segment_of (res_breakdown r)
         (filter positive_overlap
            (spec_intersections (time_to_minutes 10 0)
                                (time_to_minutes 18 0))).
Proof.
  apply (weekday_segments_are_band_intersections
           ascii_only no_holidays thursday (u "10:00") (u "18:00") 10 0 18 0);
    [reflexivity | reflexivity | reflexivity
     | unfold time_to_minutes; lia | unfold time_to_minutes; lia].
Defined.

Lemma special_day_sample :
  exists r amount,
    calculate_daily_wage ascii_only no_holidays saturday
                         (u "13:00") (u "17:30") = Ok r
    /\ res_total_minutes r = time_to_minutes 17 30 - time_to_minutes 13 0
    /\ res_breakdown r =
       [{| seg_type := u "土日祝"; seg_minutes := res_total_minutes r;
           seg_rate := 1290; seg_amount := amount |}]
    /\ hourly_pay (res_total_minutes r) 1290 = Ok amount
    /\ res_wage r = amount.
Proof.
  apply (special_day_single_segment
           ascii_only no_holidays saturday (u "13:00") (u "17:30") 13 0 17 30);
    [reflexivity | reflexivity | lia | lia | lia | lia | reflexivity].
Defined.

Lemma wage_sum_sample :
  exists r,
    calculate_daily_wage ascii_only no_holidays thursday
                         (u "12:49") (u "18:00") = Ok r
    /\ py_sum (map seg_amount (res_breakdown r)) = Ok (res_wage r)
    /\ Forall (fun seg =>
                 hourly_pay (seg_minutes seg) (seg_rate seg)
                 = Ok (seg_amount seg)
                 /\ near_amount seg = true)
              (res_breakdown r).
Proof.
  apply (wage_is_sum_of_segment_amounts
           ascii_only no_holidays thursday (u "12:49") (u "18:00") 12 49 18 0);
    [reflexivity | reflexivity | lia | lia | lia | lia].
Defined.

Lemma weekday_durations_sample :
  exists r,
    calculate_daily_wage ascii_only no_holidays thursday
                         (u "10:00") (u "18:00") = Ok r
    /\ res_total_minutes r = time_to_minutes 18 0 - time_to_minutes 10 0
    /\ sum_minutes (res_breakdown r) = res_total_minutes r
    /\ StronglySorted earlier_band (res_breakdown r).
Proof.
  apply (weekday_durations_sum_to_total
           ascii_only no_holidays thursday (u "10:00") (u "18:00") 10 0 18 0);
    [reflexivity | reflexivity | reflexivity
     | unfold time_to_minutes; lia | unfold time_to_minutes; lia].
Defined.

Lemma weekday_0900_1800_sample :
  calculate_daily_wage ascii_only new_year_2026 thursday
                       (u "09:00") (u "18:00") =
  Ok {| res_date := thursday; res_start := u "09:00"; res_end := u "18:00";
        res_total_minutes := 540;
        res_wage := PFloat (of_int 10610);
        res_breakdown :=
          [ {| seg_type := u "〜13:00"; seg_minutes := 240;
               seg_rate := 1140; seg_amount := PFloat (of_int 4560) |};
            {| seg_type := u "13:00〜17:00"; seg_minutes := 240;
               seg_rate := 1190; seg_amount := PFloat (of_int 4760) |};
            {| seg_type := u "17:00〜"; seg_minutes := 60;
               seg_rate := 1290; seg_amount := PFloat (of_int 1290) |} ] |}.
Proof.
  apply (weekday_0900_1800 ascii_only new_year_2026 thursday). reflexivity.
Defined.

Lemma no_shift_line_sample :
  loop_body ascii_only 2026 1 (u "01/05(月)" ++ TAB ++ u "－")
  = Ok (Skip NoShift).
Proof.
  apply (header_and_no_shift_lines_skipped
           ascii_only 2026 1 (u "01/05(月)" ++ TAB ++ u "－")).
  right. reflexivity.
Defined.

Lemma year_of_december_in_january :
  let r := {| shift_date := date.make 2025 12 18;
              shift_start := u "17:00"; shift_end := u "20:00" |} in
  let month := date.month (shift_date r) in
  let year := date.year (shift_date r) in
  (month < 1 - 6 -> year = 2026 + 1)
  /\ (month > 1 + 6 -> year = 2026 - 1)
  /\ (1 - 6 <= month <= 1 + 6 -> year = 2026).
Proof.
  apply (year_of_parsed_month
           ascii_only (clock 2026 1 5) (clock 2026 1 5) sample_line
           [{| shift_date := date.make 2025 12 18;
               shift_start := u "17:00"; shift_end := u "20:00" |}]);
    [reflexivity | left; reflexivity].
Defined.

Lemma same_month_same_answer_sample :
  parse_shift_text ascii_only (clock 2026 1 5) (clock 2026 1 5) sample_line
  = parse_shift_text ascii_only (clock 2026 1 20) (clock 2026 1 31) sample_line
  /\ calculate_daily_wage ascii_only no_holidays thursday
                          (u "17:00") (u "20:00")
     = calculate_daily_wage ascii_only new_year_2026 thursday
                            (u "17:00") (u "20:00").
Proof.
  apply (parse_and_calculate_inputs
           ascii_only no_holidays new_year_2026
           (clock 2026 1 5) (clock 2026 1 5) (clock 2026 1 20) (clock 2026 1 31)
           sample_line thursday (u "17:00") (u "20:00"));
    reflexivity.
Defined.

Lemma end_before_start_sample :
  exists r,
    calculate_daily_wage ascii_only no_holidays saturday
                         (u "13:00") (u "12:30") = Ok r
    /\ res_total_minutes r = time_to_minutes 12 30 - time_to_minutes 13 0
    /\ res_total_minutes r <= 0
    /\ (is_holiday_or_weekend no_holidays saturday = false ->
        res_breakdown r = []
        /\ res_wage r = PInt 0
        /\ (sum_minutes (res_breakdown r) = res_total_minutes r
            <-> time_to_minutes 12 30 = time_to_minutes 13 0))
    /\ (is_holiday_or_weekend no_holidays saturday = true ->
        exists f,
          res_breakdown r =
          [{| seg_type := u "土日祝"; seg_minutes := res_total_minutes r;
              seg_rate := 1290; seg_amount := PFloat f |}]
          /\ float_nonpos f = true).
Proof.
  apply (end_not_after_start
           ascii_only no_holidays saturday (u "13:00") (u "12:30") 13 0 12 30);
    [reflexivity | reflexivity | lia | lia | lia | lia
     | unfold time_to_minutes; lia].
Defined.

(** ** The scenarios of the specification, run through the program *)

Example header_then_two_rows :
  parse_shift_text ascii_only (clock 2025 12 10) (clock 2025 12 10)
    (u "日付" ++ TAB ++ u "勤務時間" ++ TAB ++ u "労働時間" ++ [NEWLINE]
     ++ sample_line ++ TAB ++ u "03:00" ++ TAB ++ u "00:00" ++ [NEWLINE]
     ++ u "01/03(土)" ++ TAB ++ u "13:00～17:30" ++ [NEWLINE])
  = Ok [ {| shift_date := thursday;
            shift_start := u "17:00"; shift_end := u "20:00" |};
         {| shift_date := saturday;
            shift_start := u "13:00"; shift_end := u "17:30" |} ].
Proof. vm_compute. reflexivity. Qed.

Example weekday_evening_only :
  calculate_daily_wage ascii_only no_holidays thursday (u "17:00") (u "20:00")
  = Ok {| res_date := thursday; res_start := u "17:00"; res_end := u "20:00";
          res_total_minutes := 180;
          res_wage := PFloat (of_int 3870);
          res_breakdown :=
            [{| seg_type := u "17:00〜"; seg_minutes := 180;
                seg_rate := 1290; seg_amount := PFloat (of_int 3870) |}] |}.
Proof. vm_compute. reflexivity. Qed.

Example saturday_afternoon :
  calculate_daily_wage ascii_only no_holidays saturday (u "13:00") (u "17:30")
  = Ok {| res_date := saturday; res_start := u "13:00"; res_end := u "17:30";
          res_total_minutes := 270;
          res_wage := PFloat (of_int 5805);
          res_breakdown :=
            [{| seg_type := u "土日祝"; seg_minutes := 270;
                seg_rate := 1290; seg_amount := PFloat (of_int 5805) |}] |}.
Proof. vm_compute. reflexivity. Qed.

Example february_30_skipped :
  loop_body ascii_only 2026 1 (u "02/30(月)" ++ TAB ++ u "17:00～20:00")
  = Ok (Skip InvalidDate).
Proof. vm_compute. reflexivity. Qed.

Example no_time_range_skipped :
  loop_body ascii_only 2026 1 (u "01/05(月)" ++ TAB ++ u "17:00-20:00")
  = Ok (Skip NoTime).
Proof. vm_compute. reflexivity. Qed.

Example unrecognised_lines_give_nothing :
  parse_shift_text ascii_only (clock 2026 1 5) (clock 2026 1 5)
    (u "hello" ++ [NEWLINE] ++ u "1/5 9:00" ++ [NEWLINE; NEWLINE])
  = Ok [].
Proof. vm_compute. reflexivity. Qed.

(** Full-width digits are digits for [\d] and for [int()]; the hour comes
    out in ASCII, the minutes as they were written. *)
Example fullwidth_row :
  parse_shift_text fullwidth_digits (clock 2026 1 5) (clock 2026 1 5)
    (u "１/５(月)" ++ TAB ++ u "９:００〜１８:３０")
  = Ok [ {| shift_date := date.make 2026 1 5;
            shift_start := u "09:００"; shift_end := u "18:３０" |} ].
Proof. vm_compute. reflexivity. Qed.

(** The record of the sample line is one the calculator accepts. *)
Example sample_line_is_calculable :
  exists sh sm eh em res,
    parse_time ascii_only (u "17:00") = Ok (sh, sm)
    /\ parse_time ascii_only (u "20:00") = Ok (eh, em)
    /\ 0 <= sh <= 99 /\ 0 <= sm <= 99 /\ 0 <= eh <= 99 /\ 0 <= em <= 99
    /\ calculate_daily_wage ascii_only no_holidays thursday
                            (u "17:00") (u "20:00") = Ok res.
Proof.
  apply (parsed_records_are_calculable
           ascii_only no_holidays ltac:(discriminate)
           (clock 2025 12 10) (clock 2025 12 10) sample_line
           [{| shift_date := thursday;
               shift_start := u "17:00"; shift_end := u "20:00" |}]
           {| shift_date := thursday;
              shift_start := u "17:00"; shift_end := u "20:00" |});
    [vm_compute; reflexivity | left; reflexivity].
Qed.

(** ** The further theorems at work on the sample inputs *)

Lemma overlap_splits_sample :
  calculate_overlap 600 1080 0 1440
  = calculate_overlap 600 1080 0 780 + calculate_overlap 600 1080 780 1440
  /\ calculate_overlap 600 1080 0 1440 = calculate_overlap 0 1440 600 1080
  /\ 0 <= calculate_overlap 600 1080 0 1440 <= 1440 - 0.
Proof. apply (calculate_overlap_splits 600 1080 0 780 1440). lia. Defined.

Lemma late_evening_sample :
  exists r,
    calculate_daily_wage ascii_only no_holidays thursday
                         (u "23:00") (u "25:30") = Ok r
    /\ res_total_minutes r = time_to_minutes 25 30 - time_to_minutes 23 0
    /\ sum_minutes (res_breakdown r)
       = calculate_overlap (time_to_minutes 23 0) (time_to_minutes 25 30)
                           0 (time_to_minutes 24 0)
    /\ (List.length (res_breakdown r) <= 3)%nat.
Proof.
  apply (weekday_pays_within_the_day
           ascii_only no_holidays thursday (u "23:00") (u "25:30") 23 0 25 30);
    reflexivity.
Defined.

Lemma after_midnight_sample :
  calculate_daily_wage ascii_only no_holidays thursday (u "25:00") (u "26:00")
  = Ok {| res_date := thursday; res_start := u "25:00"; res_end := u "26:00";
          res_total_minutes := time_to_minutes 26 0 - time_to_minutes 25 0;
          res_wage := PInt 0; res_breakdown := [] |}.
Proof.
  apply (weekday_after_midnight_unpaid
           ascii_only no_holidays thursday (u "25:00") (u "26:00") 25 0 26 0);
    [reflexivity | reflexivity | reflexivity | unfold time_to_minutes; lia].
Defined.

Lemma morning_only_sample :
  exists amount,
    hourly_pay (time_to_minutes 12 0 - time_to_minutes 9 0) 1140 = Ok amount
    /\ calculate_daily_wage ascii_only no_holidays thursday
                            (u "09:00") (u "12:00") =
       Ok {| res_date := thursday;
             res_start := u "09:00"; res_end := u "12:00";
             res_total_minutes := time_to_minutes 12 0 - time_to_minutes 9 0;
             res_wage := amount;
             res_breakdown :=
               [{| seg_type := u "〜13:00";
                   seg_minutes := time_to_minutes 12 0 - time_to_minutes 9 0;
                   seg_rate := 1140; seg_amount := amount |}] |}.
Proof.
  apply (weekday_shift_within_one_band
           ascii_only no_holidays thursday (u "09:00") (u "12:00") 9 0 12 0
           (u "〜13:00") 0 (13 * 60) 1140);
    [reflexivity | reflexivity | reflexivity | left; reflexivity
     | unfold time_to_minutes; lia | unfold time_to_minutes; lia
     | unfold time_to_minutes; lia].
Defined.

Lemma quarter_hours_sample :
  exists r,
    calculate_daily_wage ascii_only no_holidays thursday
                         (u "09:15") (u "18:45") = Ok r
    /\ Forall (fun seg => exact_amount seg = true) (res_breakdown r).
Proof.
  apply (quarter_hour_amounts_are_exact
           ascii_only no_holidays thursday (u "09:15") (u "18:45") 9 15 18 45);
    [reflexivity | reflexivity | lia | lia | lia | lia
     | reflexivity | reflexivity].
Defined.

Lemma seconds_ignored_sample :
  parse_time ascii_only (u "09" ++ u ":" ++ u "30" ++ u ":" ++ u "45")
  = parse_time ascii_only (u "09" ++ u ":" ++ u "30").
Proof.
  apply (parse_time_ignores_further_fields ascii_only (u "09") (u "30") (u "45"));
    reflexivity.
Defined.

Lemma no_colon_sample :
  exists ex,
    calculate_daily_wage ascii_only no_holidays thursday (u "0900") (u "18:00")
    = Raise ex
    /\ (ex = ValueError \/ ex = IndexError).
Proof.
  apply (start_without_colon_raises
           ascii_only no_holidays thursday (u "0900") (u "18:00")).
  reflexivity.
Defined.

Lemma sample_date_exists :
  let dt := thursday in
  1 <= date.year dt <= 9999
  /\ 1 <= date.month dt <= 12
  /\ 1 <= date.day dt <= date.days_in_month (date.year dt) (date.month dt)
  /\ date.day dt <= 31.
Proof.
  apply (parsed_dates_exist
           ascii_only (clock 2025 12 10) (clock 2025 12 10) sample_line
           [{| shift_date := thursday;
               shift_start := u "17:00"; shift_end := u "20:00" |}]
           {| shift_date := thursday;
              shift_start := u "17:00"; shift_end := u "20:00" |});
    [vm_compute; reflexivity | left; reflexivity].
Defined.

Lemma sample_date_within_six_months :
  -6 <= 12 * (date.year thursday - 2026) + (date.month thursday - 1) <= 6.
Proof.
  apply (parsed_dates_within_six_months
           ascii_only (clock 2026 1 5) (clock 2026 1 5) sample_line
           [{| shift_date := thursday;
               shift_start := u "17:00"; shift_end := u "20:00" |}]
           {| shift_date := thursday;
              shift_start := u "17:00"; shift_end := u "20:00" |});
    [cbn; lia | vm_compute; reflexivity | left; reflexivity].
Defined.


Lemma blank_text_sample :
  parse_shift_text ascii_only (clock 2026 1 5) (clock 2026 1 5)
                   (u "  " ++ [NEWLINE] ++ TAB ++ [NEWLINE])
  = Ok [].
Proof.
  apply (blank_text_gives_no_records
           ascii_only (clock 2026 1 5) (clock 2026 1 5)
           (u "  " ++ [NEWLINE] ++ TAB ++ [NEWLINE])).
  reflexivity.
Defined.

Lemma joined_rows_sample :
  exists r1 r2,
    parse_shift_text ascii_only (clock 2025 12 10) (clock 2025 12 10)
                     sample_line = Ok r1
    /\ parse_shift_text ascii_only (clock 2025 12 10) (clock 2025 12 10)
                        saturday_line = Ok r2
    /\ parse_shift_text ascii_only (clock 2025 12 10) (clock 2025 12 10)
                        (sample_line ++ [NEWLINE] ++ saturday_line)
       = Ok (r1 ++ r2).
Proof.
  apply (parse_of_joined_texts
           ascii_only (clock 2025 12 10) (clock 2025 12 10)
           sample_line saturday_line);
    reflexivity.
Defined.


Lemma main_totals_sample :
  exists shifts,
    parse_shift_text ascii_only (clock 2025 12 10) (clock 2025 12 10)
                     (sample_line ++ [NEWLINE] ++ saturday_line) = Ok shifts
    /\ shifts <> []
    /\ Forall2 (result_of ascii_only no_holidays) shifts sample_results
    /\ List.length sample_results = List.length shifts
    /\ 450 = sum_total_minutes sample_results
    /\ py_sum (map res_wage sample_results) = Ok (PFloat (of_int 9675)).
Proof.
  apply (main_totals
           ascii_only no_holidays (clock 2025 12 10) (clock 2025 12 10)
           (sample_line ++ [NEWLINE] ++ saturday_line)
           sample_results (PFloat (of_int 9675)) 450).
  vm_compute. reflexivity.
Defined.

Lemma ninety_minutes_sample : 90 = 90.
Proof. apply (format_minutes_injective 90 90). reflexivity. Defined.

Lemma formatted_time_sample :
  parse_time ascii_only (format_02d 9 ++ u ":" ++ format_02d 5) = Ok (9, 5).
Proof. apply (parse_time_of_formatted ascii_only 9 5); lia. Defined.
